(** * DITA-to-CSV converter: a shallow embedding of [Ditatocsvnew2.py]

    The converter walks parsed XML documents with BeautifulSoup, pulls
    labelled pieces of text out of them and assembles one CSV row per
    (base file, testcase file) pair.  This development embeds

    - the Python [str] operations the script relies on,
    - the parsed tree together with [find_all], [find] and
      [get_text(strip=True)],
    - the five extraction functions and the pairing / row assembly of
      [process_folder],

    and proves the properties the specification states about them.

    Characters are code points below 256 (the type [ascii]); the tables for
    [str.isspace] and [str.lower] are the ones of Python 3 on that range. *)

From Stdlib Require Import Ascii.
From stdpp Require Import base option list strings gmap.

Local Open Scope char_scope.

(** ** Python [str] operations *)

Module PyStr.

(** [c.isspace()] for a code point below 256: TAB, LF, VT, FF, CR,
    FS, GS, RS, US, SPACE, NEL and NBSP. *)
Definition isspace (c : ascii) : bool :=
  match c with
  | "009" | "010" | "011" | "012" | "013"
  | "028" | "029" | "030" | "031" | "032"
  | "133" | "160" => true
  | _ => false
  end.

(** [c.lower()] for a code point below 256: [A-Z] and the Latin-1
    capitals U+00C0..U+00DE (the multiplication sign U+00D7 apart) move up
    by 32; every other code point is its own lower case. *)
Definition lower_char (c : ascii) : ascii :=
  let n := nat_of_ascii c in
  if (65 <=? n)%nat && (n <=? 90)%nat then ascii_of_nat (n + 32)
  else if (192 <=? n)%nat && (n <=? 222)%nat && negb (n =? 215)%nat
       then ascii_of_nat (n + 32)
  else c.

Fixpoint lower (s : string) : string :=
  match s with
  | EmptyString => EmptyString
  | String c s' => String (lower_char c) (lower s')
  end.

(** [s.lstrip()], [s.rstrip()] and [s.strip()]. *)
Fixpoint lstrip (s : string) : string :=
  match s with
  | EmptyString => EmptyString
  | String c s' => if isspace c then lstrip s' else s
  end.

Fixpoint rstrip (s : string) : string :=
  match s with
  | EmptyString => EmptyString
  | String c s' =>
      match rstrip s' with
      | EmptyString => if isspace c then EmptyString else String c EmptyString
      | r => String c r
      end
  end.

Definition strip (s : string) : string := rstrip (lstrip s).

(** [s.startswith(p)]. *)
Fixpoint startswith (s p : string) {struct p} : bool :=
  match p, s with
  | EmptyString, _ => true
  | String _ _, EmptyString => false
  | String a p', String b s' => if decide (a = b) then startswith s' p' else false
  end.

(** [s.endswith(p)]: [s] is [p], or the rest of [s] ends with [p]. *)
Fixpoint endswith (s p : string) : bool :=
  bool_decide (s = p)
  || match s with
     | EmptyString => false
     | String _ s' => endswith s' p
     end.

(** [p in s] for strings: [p] starts at some position of [s]. *)
Fixpoint contains (s p : string) : bool :=
  startswith s p
  || match s with
     | EmptyString => false
     | String _ s' => contains s' p
     end.

(** [s.replace(old, new)] for a non-empty [old]: the occurrences of [old]
    are taken from the left and do not overlap.  [skip] counts the
    characters of a matched occurrence still to be dropped. *)
Fixpoint replace_from (skip : nat) (old new s : string) : string :=
  match s with
  | EmptyString => EmptyString
  | String c s' =>
      match skip with
      | S k => replace_from k old new s'
      | O =>
          if startswith s old
          then new +:+ replace_from (String.length old - 1) old new s'
          else String c (replace_from 0 old new s')
      end
  end.

Definition replace (s old new : string) : string := replace_from 0 old new s.

(** [s.rsplit(sep, 1)[0]] for a non-empty [sep]: what stands before the
    last occurrence of [sep], or all of [s] when [sep] does not occur. *)
Fixpoint before_last (sep s : string) : option string :=
  match s with
  | EmptyString => None
  | String c s' =>
      match before_last sep s' with
      | Some r => Some (String c r)
      | None => if startswith s sep then Some EmptyString else None
      end
  end.

Definition rsplit1_head (s sep : string) : string :=
  default s (before_last sep s).

(** [sep.join(l)]. *)
Fixpoint join (sep : string) (l : list string) : string :=
  match l with
  | [] => EmptyString
  | [x] => x
  | x :: l' => x +:+ sep +:+ join sep l'
  end.

(** Truth value of a string: [bool(s)]. *)
Definition truthy (s : string) : bool :=
  match s with EmptyString => false | String _ _ => true end.

End PyStr.

Local Close Scope char_scope.

(** The line feed, as a one-character string. *)
Definition NL : string := String (ascii_of_nat 10) EmptyString.

(** ** The parsed tree

    A BeautifulSoup tree has tags, which carry a name and a list of children,
    and strings.  Attributes are never read by the script; comments and
    processing instructions are matched by no [find_all] and contribute to no
    [get_text], so neither is represented.  The soup object itself is the
    tag named [[document]] that holds the top-level nodes.  A tag is always
    true in a condition, so [if tag] only asks whether [find] returned one. *)

#[local] Set Warnings "-register-all".

Inductive node : Type :=
| Text (s : string)
| Elem (name : string) (children : list node).

Module Soup.

(** [tag.descendants]: every node below [n], in document order. *)
Fixpoint descendants (n : node) : list node :=
  match n with
  | Text _ => []
  | Elem _ cs => flat_map (fun c => c :: descendants c) cs
  end.

Definition named (names : list string) (n : node) : bool :=
  match n with
  | Text _ => false
  | Elem name _ => bool_decide (name ∈ names)
  end.

(** [tag.find_all([name, ...])], [tag.find_all(name)] and
    [tag.find(name)]. *)
Definition find_all_of (names : list string) (n : node) : list node :=
  filter (fun d => named names d = true) (descendants n).

Definition find_all (name : string) (n : node) : list node :=
  find_all_of [name] n.

Definition find (name : string) (n : node) : option node :=
  head (find_all name n).

(** The strings below a tag, in document order. *)
Definition strings (n : node) : list string :=
  omap (fun d => match d with Text s => Some s | Elem _ _ => None end)
       (descendants n).

(** [tag.get_text(strip=True)]: each string is stripped, the ones left
    empty are dropped, and the rest are concatenated with no separator. *)
Definition get_text_strip (n : node) : string :=
  PyStr.join EmptyString
    (filter (fun s => PyStr.truthy s = true) (PyStr.strip <$> strings n)).

End Soup.

(** ** Files, exceptions and printed lines

    Every extraction function opens its file, reads it and hands the text to
    the parser inside one [try] block.  A path therefore either yields a
    parsed soup or raises an exception, of which only the message is ever
    looked at.  A path missing from the file system raises the
    [FileNotFoundError] of [open]. *)

Inductive file : Type :=
| Unreadable (msg : string)
| Parsed (soup : node).

Abbreviation filesystem := (gmap string file).

Definition no_such_file (file_path : string) : string :=
  "[Errno 2] No such file or directory: '" +:+ file_path +:+ "'".

Definition read_soup (fs : filesystem) (file_path : string) : string + node :=
  match fs !! file_path with
  | Some (Parsed soup) => inr soup
  | Some (Unreadable msg) => inl msg
  | None => inl (no_such_file file_path)
  end.

(** A computation that prints: its value and the lines it wrote to standard
    output, oldest first. *)
Definition Out (A : Type) : Type := A * list string.

#[global] Instance Out_ret : MRet Out := fun A a => (a, []).

#[global] Instance Out_bind : MBind Out :=
  fun A B k m => let '(b, later) := k m.1 in (b, m.2 ++ later).

Definition print (line : string) : Out unit := (tt, [line]).

(** ** The extraction functions *)

(** The two running values of the loop of [extract_premise_and_requirement]. *)
Record pr_state := { pr_premise : string; pr_requirement : string }.

(** Body of [for p in paragraphs]. *)
Definition premise_requirement_step (st : pr_state) (p : node) : pr_state :=
  let text := Soup.get_text_strip p in
  if PyStr.startswith text "Premise:" then
    {| pr_premise := PyStr.strip (PyStr.replace text "Premise:" EmptyString);
       pr_requirement := pr_requirement st |}
  else if PyStr.startswith text "Requirement:" then
    {| pr_premise := pr_premise st;
       pr_requirement :=
         pr_requirement st
         +:+ PyStr.strip (PyStr.replace text "Requirement:" EmptyString) +:+ NL |}
  else st.

(** The two nested loops over the entries and their paragraphs. *)
Definition premise_requirement_scan (soup : node) : pr_state :=
  fold_left
    (fun st entry => fold_left premise_requirement_step (Soup.find_all "p" entry) st)
    (Soup.find_all "entry" soup)
    {| pr_premise := EmptyString; pr_requirement := EmptyString |}.

Definition premise_requirement_format (st : pr_state) : string :=
  "Premise:" +:+ NL +:+ pr_premise st +:+ NL +:+ "Requirement:" +:+ NL
  +:+ PyStr.strip (pr_requirement st).

Definition extract_premise_and_requirement
    (fs : filesystem) (file_path : string) : Out string :=
  match read_soup fs file_path with
  | inr soup => mret (premise_requirement_format (premise_requirement_scan soup))
  | inl e =>
      _ ← print ("Error extracting Premise and Requirement from "
                  +:+ file_path +:+ ": " +:+ e);
      mret EmptyString
  end.

(** The list [xd_notes] and the set [seen_notes] of [extract_xd_note]. *)
Record note_state := { xd_notes : list string; seen_notes : gset string }.

(** Body of [for sibling in entry.find_all(["li", "p"])]. *)
Definition note_step (st : note_state) (sibling : node) : note_state :=
  let note_text := Soup.get_text_strip sibling in
  if PyStr.truthy note_text && bool_decide (note_text ∉ seen_notes st) then
    {| xd_notes := xd_notes st ++ [note_text];
       seen_notes := seen_notes st ∪ {[ note_text ]} |}
  else st.

(** Body of [for p in entry.find_all("p")]. *)
Definition note_marker_step (entry : node) (st : note_state) (p : node) : note_state :=
  if bool_decide (PyStr.lower (Soup.get_text_strip p) = "xd note") then
    fold_left note_step (Soup.find_all_of ["li"; "p"] entry) st
  else st.

Definition note_scan (soup : node) : note_state :=
  fold_left
    (fun st entry => fold_left (note_marker_step entry) (Soup.find_all "p" entry) st)
    (Soup.find_all "entry" soup)
    {| xd_notes := []; seen_notes := ∅ |}.

Definition extract_xd_note (fs : filesystem) (file_path : string) : Out string :=
  match read_soup fs file_path with
  | inr soup => mret (PyStr.join NL (xd_notes (note_scan soup)))
  | inl e =>
      _ ← print ("Error extracting xd Notes from " +:+ file_path +:+ ": " +:+ e);
      mret EmptyString
  end.

(** Body of the loop of [extract_section_content]; nothing in it can raise,
    so the handler of the function is never entered. *)
Definition section_step (section_name : string) (content : list string) (dlentry : node)
    : list string :=
  match Soup.find "dt" dlentry, Soup.find "dd" dlentry with
  | Some dt, Some dd =>
      if PyStr.contains (PyStr.lower (Soup.get_text_strip dt)) (PyStr.lower section_name)
      then content ++ [Soup.get_text_strip dd]
      else content
  | _, _ => content
  end.

Definition extract_section_content (soup : node) (section_name : string) : string :=
  PyStr.join NL (fold_left (section_step section_name) (Soup.find_all "dlentry" soup) []).

(** One element of [custom_fields]: the dictionary under the key [fields]. *)
Record StepRecord := { Action : string; Data : string; Expected_Result : string }.

(** [title_tag.get_text(strip=True) if title_tag else "Unknown Title"]. *)
Definition title_of (soup : node) : string :=
  match Soup.find "title" soup with
  | Some title_tag => Soup.get_text_strip title_tag
  | None => "Unknown Title"
  end.

(** Body of the loop of [parse_testcase_dita]. *)
Definition custom_fields_step (soup : node) (custom_fields : list StepRecord) (dlentry : node)
    : list StepRecord :=
  match Soup.find "dt" dlentry with
  | Some dt =>
      if PyStr.startswith (Soup.get_text_strip dt) "R" then
        let entry_id := Soup.get_text_strip dt in
        let expected_results := extract_section_content soup "Expected Results" in
        let procedures := extract_section_content soup "Procedures" in
        let notes := extract_section_content soup "Notes" in
        custom_fields ++
          [ {| Action := "*" +:+ entry_id +:+ "*" +:+ NL +:+ procedures;
               Data := "*Notes:*" +:+ NL +:+ notes;
               Expected_Result := expected_results |} ]
      else custom_fields
  | None => custom_fields
  end.

Definition custom_fields_of (soup : node) : list StepRecord :=
  fold_left (custom_fields_step soup) (Soup.find_all "dlentry" soup) [].

(** A component of a returned tuple is [None] exactly on the error path. *)
Definition parse_testcase_dita (fs : filesystem) (file_path : string)
    : Out (option string * option string * option (list StepRecord)) :=
  match read_soup fs file_path with
  | inr soup =>
      let title := title_of soup in
      xd_note ← extract_xd_note fs file_path;
      mret (Some title, Some xd_note, Some (custom_fields_of soup))
  | inl e =>
      _ ← print ("Error parsing " +:+ file_path +:+ ": " +:+ e);
      mret (None, None, None)
  end.

(** The three running values of the loop of [parse_dita]. *)
Record dita_state :=
  { description : list string; premise : string; requirements : string }.

Definition parse_dita_step (st : dita_state) (dlentry : node) : dita_state :=
  match Soup.find "dt" dlentry, Soup.find "dd" dlentry with
  | Some dt, Some dd =>
      let header := PyStr.lower (Soup.get_text_strip dt) in
      let body := Soup.get_text_strip dd in
      if bool_decide (header = "premise") then
        {| description := description st; premise := body;
           requirements := requirements st |}
      else if bool_decide (header = "requirements") then
        {| description := description st; premise := premise st;
           requirements := body |}
      else
        {| description := description st ++ [Soup.get_text_strip dt +:+ ":" +:+ NL +:+ body];
           premise := premise st; requirements := requirements st |}
  | _, _ => st
  end.

Definition parse_dita_scan (soup : node) : dita_state :=
  fold_left parse_dita_step (Soup.find_all "dlentry" soup)
    {| description := []; premise := EmptyString; requirements := EmptyString |}.

Definition parse_dita (fs : filesystem) (file_path : string)
    : Out (option string * option string * option string * option string) :=
  match read_soup fs file_path with
  | inr soup =>
      let title := title_of soup in
      let st := parse_dita_scan soup in
      mret (Some title, Some (PyStr.join (NL +:+ NL) (description st)),
           Some (premise st), Some (requirements st))
  | inl e =>
      _ ← print ("Error parsing " +:+ file_path +:+ ": " +:+ e);
      mret (None, None, None, None)
  end.

(** ** Serialising the step records: [json.dumps]

    With the default [ensure_ascii=True] every character outside the
    printable ASCII range is escaped, and the separators are [", "] and
    [": "]. *)

Module Json.

Definition QUOTE : string := String (ascii_of_nat 34) EmptyString.
Definition BACKSLASH : string := String (ascii_of_nat 92) EmptyString.

Definition hex_digit (n : nat) : ascii :=
  ascii_of_nat (if (n <? 10)%nat then 48 + n else 87 + n).

Definition escape_char (c : ascii) : string :=
  let n := nat_of_ascii c in
  if (n =? 34)%nat then BACKSLASH +:+ QUOTE
  else if (n =? 92)%nat then BACKSLASH +:+ BACKSLASH
  else if (n =? 10)%nat then BACKSLASH +:+ "n"
  else if (n =? 13)%nat then BACKSLASH +:+ "r"
  else if (n =? 9)%nat then BACKSLASH +:+ "t"
  else if (n =? 8)%nat then BACKSLASH +:+ "b"
  else if (n =? 12)%nat then BACKSLASH +:+ "f"
  else if (32 <=? n)%nat && (n <=? 126)%nat then String c EmptyString
  else BACKSLASH +:+ "u00"
       +:+ String (hex_digit (n / 16)) (String (hex_digit (n mod 16)) EmptyString).

Fixpoint escape (s : string) : string :=
  match s with
  | EmptyString => EmptyString
  | String c s' => escape_char c +:+ escape s'
  end.

Definition str (s : string) : string := QUOTE +:+ escape s +:+ QUOTE.

Definition member (key value : string) : string := str key +:+ ": " +:+ value.

Definition step_record (r : StepRecord) : string :=
  "{" +:+ member "fields"
            ("{" +:+ member "Action" (str (Action r)) +:+ ", "
                 +:+ member "Data" (str (Data r)) +:+ ", "
                 +:+ member "Expected Result" (str (Expected_Result r)) +:+ "}")
      +:+ "}".

(** [json.dumps(custom_fields)]; [None] is written [null]. *)
Definition dumps (custom_fields : option (list StepRecord)) : string :=
  match custom_fields with
  | None => "null"
  | Some l => "[" +:+ PyStr.join ", " (step_record <$> l) +:+ "]"
  end.

End Json.

(** ** Pairing the files and assembling the rows: [process_folder] *)

(** [os.path.join(a, b)] on a POSIX system. *)
Definition os_path_join (a b : string) : string :=
  if PyStr.startswith b "/" then b
  else if bool_decide (a = EmptyString) || PyStr.endswith a "/" then a +:+ b
  else a +:+ "/" +:+ b.

(** A dictionary keeps its keys in insertion order; storing under a key that
    is present replaces the value where it stands. *)
Fixpoint dict_set (d : list (string * string)) (k v : string) : list (string * string) :=
  match d with
  | [] => [(k, v)]
  | (k', v') :: d' =>
      if decide (k' = k) then (k', v) :: d' else (k', v') :: dict_set d' k v
  end.

(** [files], [base_files] and [matched_files], from the result of
    [os.listdir(input_folder)]. *)
Definition dita_files (listing : list string) : list string :=
  filter (fun f => PyStr.endswith f ".dita" = true) listing.

Definition base_files (files : list string) : list (string * string) :=
  fold_left
    (fun d f => dict_set d (PyStr.rsplit1_head f "_testcase.dita") f)
    (filter (fun f => PyStr.endswith f "_testcase.dita" = true) files)
    [].

Definition matched_files (listing : list string) : list (string * string) :=
  let files := dita_files listing in
  (fun '(base_name, testcase_file) => (base_name +:+ ".dita", testcase_file))
  <$> filter (fun '(base_name, _) => base_name +:+ ".dita" ∈ files)
             (base_files files).

(** A cell of a row is a string, or [None] when the value is Python's
    [None]. *)
Definition Row : Type := list (option string).

(** [bool(x)] for a value that is a string or [None]. *)
Definition truthy_opt (x : option string) : bool :=
  match x with
  | Some s => PyStr.truthy s
  | None => false
  end.

(** Body of [for base_file, testcase_file in matched_files]. *)
Definition process_pair (fs : filesystem) (input_folder : string)
    (data : list Row) (matched : string * string) : Out (list Row) :=
  let '(base_file, testcase_file) := matched in
  let base_file_path := os_path_join input_folder base_file in
  let testcase_file_path := os_path_join input_folder testcase_file in
  custom_field_premise ← extract_premise_and_requirement fs base_file_path;
  '(base_title, base_description, premise, _) ← parse_dita fs base_file_path;
  '(testcase_title, xd_note, custom_fields) ← parse_testcase_dita fs testcase_file_path;
  if truthy_opt base_title && truthy_opt testcase_title then
    mret (data ++ [[ base_title; base_description; Some custom_field_premise;
                     Some (Json.dumps custom_fields); xd_note ]])
  else mret data.

(** The loop over the matched pairs, threading [data] and the printed
    lines. *)
Fixpoint process_pairs (fs : filesystem) (input_folder : string)
    (data : list Row) (pairs : list (string * string)) : Out (list Row) :=
  match pairs with
  | [] => mret data
  | matched :: rest =>
      data' ← process_pair fs input_folder data matched;
      process_pairs fs input_folder data' rest
  end.

Definition header : Row :=
  [ Some "Summary"; Some "Description"; Some "Custom field (Premise)";
    Some "Custom Field Manual Test Steps"; Some "Custom Field (xd Notes)" ].

(** [process_folder]: the rows handed to the CSV writer, header first, and
    the lines printed on the way.  [listing] is what [os.listdir] returned
    for [input_folder]. *)
Definition process_folder (fs : filesystem) (input_folder : string)
    (listing : list string) (output_csv : string) : Out (list Row) :=
  data ← process_pairs fs input_folder [] (matched_files listing);
  _ ← print ("CSV file created successfully: " +:+ output_csv);
  mret (header :: data).

(** ** Definitions used to state the properties *)

(** The testcase file name that belongs to a base name. *)
Definition testcase_name (base_name : string) : string :=
  base_name +:+ "_testcase.dita".

(** A dictionary whose every value is the testcase name of its key. *)
Definition well_keyed (d : list (string * string)) : Prop :=
  ∀ k v, (k, v) ∈ d → v = testcase_name k.

(** A marker paragraph: its text, lower-cased, is [xd note]. *)
Definition is_marker (p : node) : Prop :=
  PyStr.lower (Soup.get_text_strip p) = "xd note".

(** The texts the innermost loop of [extract_xd_note] meets, in the order it
    meets them: for every entry, for every marker paragraph of the entry, the
    texts of all [li] and [p] below that entry. *)
Definition note_candidates (soup : node) : list string :=
  entry ← Soup.find_all "entry" soup;
  p ← filter is_marker (Soup.find_all "p" entry);
  Soup.get_text_strip <$> Soup.find_all_of ["li"; "p"] entry.

(** Keep the first occurrence of every element, drop the later ones. *)
Fixpoint first_occurrences (l : list string) : list string :=
  match l with
  | [] => []
  | x :: l' => x :: filter (λ y, y ≠ x) (first_occurrences l')
  end.

(** The list part of the innermost loop, over the texts alone. *)
Definition collect (acc : list string) (texts : list string) : list string :=
  fold_left
    (λ acc t, if PyStr.truthy t && bool_decide (t ∉ acc) then acc ++ [t] else acc)
    texts acc.

(** [seen_notes] always holds exactly the elements of [xd_notes]. *)
Definition coherent st : Prop := seen_notes st = list_to_set (xd_notes st).

(** Sample documents. *)
Definition li (text : string) : node := Elem "li" [Text text].
Definition para (text : string) : node := Elem "p" [Text text].

Definition notes_soup : node :=
  Elem "[document]"
    [ Elem "entry" [para "xd note"; li "x"; li " y "];
      Elem "entry" [li "x"; para "XD Note"; li "z"] ].

(** The term of a definition-list entry, when it has one, and its
    description. *)
Definition term_of (dlentry : node) : option string :=
  Soup.get_text_strip <$> Soup.find "dt" dlentry.

Definition description_of (dlentry : node) : option string :=
  Soup.get_text_strip <$> Soup.find "dd" dlentry.

(** The description of [dlentry] when its term contains [section_name],
    letter case set aside. *)
Definition section_match (section_name : string) (dlentry : node) : option string :=
  term ← term_of dlentry;
  body ← description_of dlentry;
  if PyStr.contains (PyStr.lower term) (PyStr.lower section_name)
  then Some body else None.

(** The text of a section: the matching descriptions of the whole document,
    joined by line feeds. *)
Definition section_text (soup : node) (section_name : string) : string :=
  PyStr.join NL (omap (section_match section_name) (Soup.find_all "dlentry" soup)).

(** The terms that start with [R], in document order. *)
Definition qualifying_term (dlentry : node) : option string :=
  term ← term_of dlentry;
  if PyStr.startswith term "R" then Some term else None.

Definition qualifying_terms (soup : node) : list string :=
  omap qualifying_term (Soup.find_all "dlentry" soup).

(** The record of one qualifying term, given the three section texts. *)
Definition step_record
    (expected_results procedures notes : string) (term : string) : StepRecord :=
  {| Action := "*" +:+ term +:+ "*" +:+ NL +:+ procedures;
     Data := "*Notes:*" +:+ NL +:+ notes;
     Expected_Result := expected_results |}.



Definition steps_soup : node :=
  Elem "[document]"
    [ Elem "title" [Text "Login"];
      Elem "dl"
        [ Elem "dlentry" [Elem "dt" [Text " R1 "]; Elem "dd" [Text "first"]];
          Elem "dlentry" [Elem "dt" [Text "Expected results"]; Elem "dd" [Text "shown"]];
          Elem "dlentry" [Elem "dt" [Text "Procedures"]; Elem "dd" [Text "open"]];
          Elem "dlentry" [Elem "dt" [Text "PROCEDURES (cont.)"]; Elem "dd" [Text "type"]];
          Elem "dlentry" [Elem "dt" [Text "notes"]; Elem "dd" [Text "none"]];
          Elem "dlentry" [Elem "dt" [Text "R2"]; Elem "dd" [Text "second"]] ] ].

(** The titles the two parsers return for a path. *)
Definition base_title (fs : filesystem) (file_path : string) : option string :=
  (parse_dita fs file_path).1.1.1.1.

Definition testcase_title (fs : filesystem) (file_path : string) : option string :=
  (parse_testcase_dita fs file_path).1.1.1.

(** The row a matched pair contributes, if any, and the lines printed while
    its two files are read. *)
Definition pair_row (fs : filesystem) (input_folder : string)
    (matched : string * string) : option Row :=
  let base_file_path := os_path_join input_folder matched.1 in
  let testcase_file_path := os_path_join input_folder matched.2 in
  let base := (parse_dita fs base_file_path).1 in
  let testcase := (parse_testcase_dita fs testcase_file_path).1 in
  if truthy_opt (base_title fs base_file_path)
     && truthy_opt (testcase_title fs testcase_file_path)
  then Some [ base.1.1.1; base.1.1.2;
              Some (extract_premise_and_requirement fs base_file_path).1;
              Some (Json.dumps testcase.2); testcase.1.2 ]
  else None.

Definition pair_prints (fs : filesystem) (input_folder : string)
    (matched : string * string) : list string :=
  let base_file_path := os_path_join input_folder matched.1 in
  let testcase_file_path := os_path_join input_folder matched.2 in
  (extract_premise_and_requirement fs base_file_path).2
  ++ (parse_dita fs base_file_path).2
  ++ (parse_testcase_dita fs testcase_file_path).2.

(** A string made of white space only (the empty string included). *)
Fixpoint all_space (s : string) : bool :=
  match s with
  | EmptyString => true
  | String c s' => PyStr.isspace c && all_space s'
  end.

Definition base_soup : node :=
  Elem "[document]"
    [ Elem "topic"
        [ Elem "title" [Text " Foo "];
          Elem "dl" [ Elem "dlentry" [Elem "dt" [Text "Scope"]; Elem "dd" [Text "all"]] ];
          Elem "entry" [para "Premise: A"; para "Requirement: B"; para "Requirement: C"] ] ].

Definition untitled_testcase_soup : node :=
  Elem "[document]"
    [ Elem "topic"
        [ Elem "dl" [ Elem "dlentry" [Elem "dt" [Text "R1"]; Elem "dd" [Text "x"]] ] ] ].

Definition blank_title_soup : node :=
  Elem "[document]"
    [ Elem "topic"
        [ Elem "title" [Text "  "; Elem "ph" [Text NL]];
          Elem "dl" [ Elem "dlentry" [Elem "dt" [Text "R1"]; Elem "dd" [Text "x"]] ] ] ].

Definition untitled_fs : filesystem :=
  <[ "TRC/foo.dita" := Parsed base_soup ]>
    (<[ "TRC/foo_testcase.dita" := Parsed untitled_testcase_soup ]> ∅).

Definition blank_title_fs : filesystem :=
  <[ "TRC/foo.dita" := Parsed base_soup ]>
    (<[ "TRC/foo_testcase.dita" := Parsed blank_title_soup ]> ∅).


(** The texts of the paragraphs the two nested loops visit, in the order of
    the visits. *)
Definition paragraph_texts (soup : node) : list string :=
  Soup.get_text_strip <$> (Soup.find_all "entry" soup ≫= Soup.find_all "p").

Fixpoint drop_chars (n : nat) (s : string) : string :=
  match n, s with
  | O, _ => s
  | S _, EmptyString => EmptyString
  | S k, String _ s' => drop_chars k s'
  end.

(** What follows the prefix [pre] in [text], trimmed. *)
Definition remainder (pre text : string) : string :=
  PyStr.strip (drop_chars (String.length pre) text).

(** The block as the specification words it: the premise is the remainder
    of the last paragraph that starts with [Premise:], the requirement text
    is made of the remainders of the paragraphs that start with
    [Requirement:], each followed by a line feed, in the order of the
    visits. *)
Definition premise_requirement_as_specified (soup : node) : string :=
  let texts := paragraph_texts soup in
  let premise :=
    default EmptyString
      (last (remainder "Premise:"
             <$> filter (λ t, PyStr.startswith t "Premise:" = true) texts)) in
  let requirement :=
    foldr (λ t acc, remainder "Requirement:" t +:+ NL +:+ acc) EmptyString
      (filter (λ t, PyStr.startswith t "Requirement:" = true) texts) in
  "Premise:" +:+ NL +:+ premise +:+ NL +:+ "Requirement:" +:+ NL
  +:+ PyStr.strip requirement.

Definition claim_example_soup : node :=
  Elem "[document]"
    [ Elem "entry" [para "Premise: A"; para "Requirement: B"; para "Requirement: C"] ].

Definition repeated_prefix_soup : node :=
  Elem "[document]"
    [ Elem "entry" [para "Premise: A"; para "Requirement: B, not Requirement: C"] ].

(** The literal [pre] does not occur in [text] again after its first
    character. *)
Definition no_later_occurrence (pre text : string) : Prop :=
  match text with
  | EmptyString => True
  | String _ rest => PyStr.contains rest pre = false
  end.

(** Body of the paragraph loop, on the text of the paragraph. *)
Definition premise_requirement_text_step (st : pr_state) (text : string) : pr_state :=
  if PyStr.startswith text "Premise:" then
    {| pr_premise := PyStr.strip (PyStr.replace text "Premise:" EmptyString);
       pr_requirement := pr_requirement st |}
  else if PyStr.startswith text "Requirement:" then
    {| pr_premise := pr_premise st;
       pr_requirement :=
         pr_requirement st
         +:+ PyStr.strip (PyStr.replace text "Requirement:" EmptyString) +:+ NL |}
  else st.




(** What [parse_dita] reads of a definition-list entry: the text of its
    first [dt] and of its first [dd]. *)
Definition dl_view (dlentry : node) : option string * option string :=
  (term_of dlentry, description_of dlentry).

(** Body of the loop of [parse_dita], on the view of the entry. *)
Definition parse_dita_view_step (st : dita_state) (view : option string * option string)
    : dita_state :=
  match view with
  | (Some term, Some body) =>
      let header := PyStr.lower term in
      if bool_decide (header = "premise") then
        {| description := description st; premise := body;
           requirements := requirements st |}
      else if bool_decide (header = "requirements") then
        {| description := description st; premise := premise st;
           requirements := body |}
      else
        {| description := description st ++ [term +:+ ":" +:+ NL +:+ body];
           premise := premise st; requirements := requirements st |}
  | _ => st
  end.




Definition titled_testcase_soup : node :=
  Elem "[document]"
    [ Elem "topic"
        [ Elem "title" [Text "Foo test"];
          Elem "dl" [ Elem "dlentry" [Elem "dt" [Text "R1"]; Elem "dd" [Text "x"]] ] ] ].

Definition requirements_fs (base : node) : filesystem :=
  <[ "TRC/foo.dita" := Parsed base ]>
    (<[ "TRC/foo_testcase.dita" := Parsed titled_testcase_soup ]> ∅).


(** ** Definitions used to state the further properties *)

(** The term and the description of the entries that have both, in document
    order: what the loop of [parse_dita] goes by. *)
Definition term_descriptions (soup : node) : list (string * string) :=
  omap (λ dlentry,
          term ← term_of dlentry;
          body ← description_of dlentry;
          Some (term, body))
       (Soup.find_all "dlentry" soup).

(** The entries of [pairs] whose term, lower-cased, is [header]. *)
Definition with_header (header : string) (pairs : list (string * string))
    : list (string * string) :=
  filter (λ tb, PyStr.lower tb.1 = header) pairs.

(** The entries that go into the free-form description. *)
Definition free_form (pairs : list (string * string)) : list (string * string) :=
  filter (λ tb, PyStr.lower tb.1 ≠ "premise" ∧ PyStr.lower tb.1 ≠ "requirements")
         pairs.

(** The view of an entry as a pair, when it has a term and a description. *)
Definition view_pair (view : option string * option string) : option (string * string) :=
  term ← view.1; body ← view.2; Some (term, body).




(** Two base documents with the same title and description and different
    premise entries. *)
Definition premise_entry_soup (text : string) : node :=
  Elem "[document]"
    [ Elem "topic"
        [ Elem "title" [Text "Foo"];
          Elem "dl"
            [ Elem "dlentry" [Elem "dt" [Text "Overview"]; Elem "dd" [Text "see"]];
              Elem "dlentry" [Elem "dt" [Text "Premise"]; Elem "dd" [Text text]] ] ] ].

(** The pair that a file of the listing gives, if it is a testcase file
    whose base file is in [listing]. *)
Definition pair_of (listing : list string) (f : string) : option (string * string) :=
  let base_name := PyStr.rsplit1_head f "_testcase.dita" in
  if decide (PyStr.endswith f "_testcase.dita" = true
             ∧ base_name +:+ ".dita" ∈ listing)
  then Some (base_name +:+ ".dita", f)
  else None.

(** An entry that holds a marker paragraph, and the entries of a document
    that do, in document order. *)
Definition has_marker (entry : node) : Prop :=
  Exists is_marker (Soup.find_all "p" entry).

Definition marker_entries (soup : node) : list node :=
  filter has_marker (Soup.find_all "entry" soup).

(** The texts of the [li] and [p] below an entry, in document order. *)
Definition sibling_texts (entry : node) : list string :=
  Soup.get_text_strip <$> Soup.find_all_of ["li"; "p"] entry.

(** A document with list items and no marker paragraph. *)
Definition unmarked_soup : node :=
  Elem "[document]"
    [ Elem "entry" [para "Notes"; li "x"; li "y"];
      Elem "p" [Text "xd note"] ].

(** A document whose table cells hold no labelled paragraph. *)
Definition unlabelled_soup : node :=
  Elem "[document]"
    [ Elem "title" [Text "Foo"];
      Elem "entry" [para "premise: lower case"; para " Requirements: plural"; li "x"];
      Elem "p" [Text "Premise: outside of any entry"] ].

(** A printable ASCII character (space to tilde), and a string made of such
    characters only. *)
Definition printable (c : ascii) : bool :=
  (32 <=? nat_of_ascii c)%nat && (nat_of_ascii c <=? 126)%nat.

Fixpoint all_printable (s : string) : bool :=
  match s with
  | EmptyString => true
  | String c s' => printable c && all_printable s'
  end.

(** White space at the start and at the end of a string. *)
Definition starts_with_space (s : string) : bool :=
  match s with
  | EmptyString => false
  | String c _ => PyStr.isspace c
  end.

Fixpoint ends_with_space (s : string) : bool :=
  match s with
  | EmptyString => false
  | String c EmptyString => PyStr.isspace c
  | String _ s' => ends_with_space s'
  end.

(** A string that neither starts nor ends with white space. *)
Definition trimmed (s : string) : Prop :=
  starts_with_space s = false ∧ ends_with_space s = false.

(** The testcase document of the samples under another title. *)
Definition retitled_testcase_soup (title : string) : node :=
  Elem "[document]"
    [ Elem "topic"
        [ Elem "title" [Text title];
          Elem "dl" [ Elem "dlentry" [Elem "dt" [Text "R1"]; Elem "dd" [Text "x"]] ] ] ].

Definition retitled_fs (title : string) : filesystem :=
  <[ "TRC/foo.dita" := Parsed base_soup ]>
    (<[ "TRC/foo_testcase.dita" := Parsed (retitled_testcase_soup title) ]> ∅).

(** * Properties *)

(** ** Strings *)

Section string_facts.

Lemma str_app_nil_l (s : string) : EmptyString +:+ s = s.
Proof. reflexivity. Qed.

Lemma str_app_cons (c : ascii) (s t : string) : String c s +:+ t = String c (s +:+ t).
Proof. reflexivity. Qed.

Lemma str_app_nil_r (s : string) : s +:+ EmptyString = s.
Proof. induction s as [|c s IH]; [done|]. by rewrite str_app_cons, IH. Qed.

Lemma str_app_assoc (s t u : string) : (s +:+ t) +:+ u = s +:+ (t +:+ u).
Proof. induction s as [|c s IH]; [done|]. by rewrite !str_app_cons, IH. Qed.

Lemma str_app_length (s t : string) :
  String.length (s +:+ t) = String.length s + String.length t.
Proof. induction s as [|c s IH]; [done|]. rewrite str_app_cons. simpl. by rewrite IH. Qed.

Lemma str_app_inv_tail (s t u : string) : s +:+ u = t +:+ u → s = t.
Proof.
  revert t. induction s as [|c s IH]; intros [|d t] H.
  - done.
  - apply (f_equal String.length) in H. rewrite str_app_nil_l, str_app_length in H.
    simpl in H. lia.
  - apply (f_equal String.length) in H. rewrite str_app_nil_l, str_app_length in H.
    simpl in H. lia.
  - rewrite !str_app_cons in H. injection H as -> H. f_equal. by apply IH.
Qed.

Lemma startswith_spec (s p : string) :
  PyStr.startswith s p = true ↔ ∃ r, s = p +:+ r.
Proof.
  revert s. induction p as [|a p IH]; intros s; simpl.
  - split; [by exists s|done].
  - destruct s as [|b s].
    + split; [done|]. intros [r Hr]. by rewrite str_app_cons in Hr.
    + destruct (decide (a = b)) as [->|Hne].
      * rewrite IH. split; intros [r Hr]; exists r.
        -- by rewrite str_app_cons, Hr.
        -- rewrite str_app_cons in Hr. by injection Hr.
      * split; [done|]. intros [r Hr]. rewrite str_app_cons in Hr.
        injection Hr as Hab _. by destruct Hne.
Qed.

Lemma startswith_refl (p : string) : PyStr.startswith p p = true.
Proof. apply startswith_spec. exists EmptyString. by rewrite str_app_nil_r. Qed.

Lemma startswith_length (s p : string) :
  PyStr.startswith s p = true → String.length p ≤ String.length s.
Proof.
  intros [r ->]%startswith_spec. rewrite str_app_length. lia.
Qed.

Lemma endswith_spec (s p : string) :
  PyStr.endswith s p = true ↔ ∃ b, s = b +:+ p.
Proof.
  induction s as [|c s IH]; simpl.
  - rewrite orb_false_r, bool_decide_eq_true. split.
    + intros <-. by exists EmptyString.
    + intros [[|d b] Hb]; [done|by rewrite str_app_cons in Hb].
  - rewrite orb_true_iff, bool_decide_eq_true, IH. split.
    + intros [<-|[b ->]]; [by exists EmptyString|].
      exists (String c b). by rewrite str_app_cons.
    + intros [[|d b] Hb]; [by left|]. right. exists b.
      rewrite str_app_cons in Hb. by injection Hb.
Qed.

Lemma before_last_length (sep s r : string) :
  PyStr.before_last sep s = Some r →
  String.length r + String.length sep ≤ String.length s.
Proof.
  revert r. induction s as [|c s IH]; intros r; simpl; [done|].
  destruct (PyStr.before_last sep s) as [r'|] eqn:E.
  - intros [= <-]. specialize (IH r' eq_refl). simpl. lia.
  - destruct (PyStr.startswith (String c s) sep) eqn:Hs; [|done].
    intros [= <-]. apply startswith_length in Hs. simpl in *. lia.
Qed.

(** When [s] ends with a non-empty [sep], the last occurrence of [sep] is
    that ending. *)
Lemma before_last_app (sep b : string) :
  sep ≠ EmptyString → PyStr.before_last sep (b +:+ sep) = Some b.
Proof.
  intros Hsep. induction b as [|a b IH].
  - rewrite str_app_nil_l. destruct sep as [|c sep]; [done|]. simpl.
    destruct (PyStr.before_last (String c sep) sep) as [r|] eqn:E.
    + apply before_last_length in E. simpl in E. lia.
    + destruct (decide (c = c)); [|done]. by rewrite startswith_refl.
  - rewrite str_app_cons. simpl. by rewrite IH.
Qed.

Lemma rsplit1_head_app (sep b : string) :
  sep ≠ EmptyString → PyStr.rsplit1_head (b +:+ sep) sep = b.
Proof. intros H. unfold PyStr.rsplit1_head. by rewrite before_last_app. Qed.

End string_facts.

(** ** Pairing *)

Section pairing.

#[global] Instance testcase_name_inj : Inj (=) (=) testcase_name.
Proof. intros a b H. by apply str_app_inv_tail in H. Qed.

Lemma dict_set_elem d k x :
  well_keyed d →
  x ∈ dict_set d k (testcase_name k) ↔ x ∈ d ∨ x = (k, testcase_name k).
Proof.
  intros Hd. induction d as [|[k' v'] d IH]; simpl.
  - rewrite list_elem_of_singleton, elem_of_nil. tauto.
  - assert (well_keyed d) as Hd' by (intros ???; apply Hd; by right).
    destruct (decide (k' = k)) as [->|Hne].
    + rewrite (Hd k v') by left. rewrite elem_of_cons. tauto.
    + rewrite !elem_of_cons, IH by done. tauto.
Qed.

Lemma dict_set_well_keyed d k : well_keyed d → well_keyed (dict_set d k (testcase_name k)).
Proof.
  intros Hd k' v' [H|[= -> ->]]%dict_set_elem; [by apply Hd|done|done].
Qed.

Lemma dict_set_keys d k v k' : k' ∈ (dict_set d k v).*1 ↔ k' ∈ d.*1 ∨ k' = k.
Proof.
  induction d as [|[k0 v0] d IH]; simpl.
  - rewrite list_elem_of_singleton, elem_of_nil. tauto.
  - destruct (decide (k0 = k)) as [->|Hne]; simpl.
    + rewrite elem_of_cons. split; [tauto|]. intros [?| ->]; [done|by left].
    + rewrite !elem_of_cons, IH. tauto.
Qed.

Lemma dict_set_NoDup d k v : NoDup d.*1 → NoDup (dict_set d k v).*1.
Proof.
  induction d as [|[k0 v0] d IH]; simpl.
  - intros _. apply NoDup_singleton.
  - rewrite NoDup_cons. intros [Hk0 Hd].
    destruct (decide (k0 = k)) as [->|Hne]; simpl.
    + by apply NoDup_cons.
    + apply NoDup_cons. split; [|by apply IH].
      rewrite dict_set_keys. by intros [?|?].
Qed.

(** The dictionary comprehension, started from any well-keyed [d]. *)
Lemma base_files_fold (l : list string) (d : list (string * string)) :
  Forall (λ f, PyStr.endswith f "_testcase.dita" = true) l →
  well_keyed d → NoDup d.*1 →
  let d' := fold_left (λ d f, dict_set d (PyStr.rsplit1_head f "_testcase.dita") f) l d in
  well_keyed d' ∧ NoDup d'.*1 ∧
  ∀ x, x ∈ d' ↔ x ∈ d ∨ ∃ k, testcase_name k ∈ l ∧ x = (k, testcase_name k).
Proof.
  intros Hl. revert d. induction Hl as [|f l Hf Hl IH]; intros d Hd Hnd; simpl.
  - split_and!; [done..|]. intros x. split; [by left|].
    intros [?|(k & Hk & _)]; [done|]. by apply elem_of_nil in Hk.
  - apply endswith_spec in Hf as [b ->].
    rewrite rsplit1_head_app by done.
    change (b +:+ "_testcase.dita") with (testcase_name b).
    destruct (IH (dict_set d b (testcase_name b))) as (Hwk & Hnd' & Hin).
    { by apply dict_set_well_keyed. }
    { by apply dict_set_NoDup. }
    split_and!; [done..|]. intros x. rewrite Hin, dict_set_elem by done.
    setoid_rewrite elem_of_cons. split.
    + intros [[?| ->]|(k & ? & ->)]; [by left|right; exists b|right; exists k]; eauto.
    + intros [?|(k & [->%(inj _)|?] & ->)]; [by left; left|by left; right|].
      right. by exists k.
Qed.

Lemma base_files_spec (files : list string) :
  let d := base_files files in
  well_keyed d ∧ NoDup d.*1 ∧
  ∀ k v, (k, v) ∈ d ↔ v = testcase_name k ∧ v ∈ files.
Proof.
  unfold base_files.
  destruct (base_files_fold
    (filter (λ f, PyStr.endswith f "_testcase.dita" = true) files) []) as (Hwk & Hnd & Hin).
  { apply Forall_forall. by intros f [? _]%list_elem_of_filter. }
  { by intros ?? ?%elem_of_nil. }
  { constructor. }
  split_and!; [done..|]. intros k v. rewrite Hin, elem_of_nil. split.
  - intros [[]|(k' & [_ ?]%list_elem_of_filter & [= -> ->])]. done.
  - intros [-> Hv]. right. exists k. split; [|done].
    apply list_elem_of_filter. split; [|done]. apply endswith_spec. by exists k.
Qed.

Lemma dita_files_elem (listing : list string) (base_name ext : string) :
  base_name +:+ ext +:+ ".dita" ∈ dita_files listing ↔
  base_name +:+ ext +:+ ".dita" ∈ listing.
Proof.
  unfold dita_files. rewrite list_elem_of_filter. split; [tauto|].
  intros H. split; [|done]. apply endswith_spec.
  exists (base_name +:+ ext). by rewrite str_app_assoc.
Qed.

End pairing.

Lemma matched_files_elem (listing : list string) (base_file testcase_file : string) :
  (base_file, testcase_file) ∈ matched_files listing ↔
  ∃ base_name,
    testcase_file = base_name +:+ "_testcase.dita" ∧
    base_file = base_name +:+ ".dita" ∧
    testcase_file ∈ listing ∧ base_file ∈ listing.
Proof.
  unfold matched_files.
  destruct (base_files_spec (dita_files listing)) as (_ & _ & Hin).
  rewrite list_elem_of_fmap. split.
  - intros ([k v] & [= -> ->] & [Hbase Hkv]%list_elem_of_filter).
    apply Hin in Hkv as [-> Hv]. exists k. split_and!; [done..| |].
    + by apply (dita_files_elem listing k "_testcase").
    + apply (dita_files_elem listing k EmptyString), Hbase.
  - intros (k & -> & -> & Ht & Hb). exists (k, testcase_name k).
    split; [done|]. apply list_elem_of_filter. split.
    + by apply (dita_files_elem listing k EmptyString).
    + apply Hin. split; [done|]. by apply (dita_files_elem listing k "_testcase").
Qed.

Lemma matched_files_NoDup (listing : list string) : NoDup (matched_files listing).*2.
Proof.
  unfold matched_files.
  destruct (base_files_spec (dita_files listing)) as (Hwk & Hnd & _).
  set (d := base_files (dita_files listing)) in *.
  rewrite <-list_fmap_compose.
  apply (sublist_NoDup _ (d.*2)).
  - assert (d.*2 = testcase_name <$> d.*1) as ->.
    { rewrite <-list_fmap_compose. apply list_fmap_ext.
      intros i [k v] Hkv. apply (Hwk k v). by apply list_elem_of_lookup_2 in Hkv. }
    by apply (NoDup_fmap_2 _).
  - erewrite (list_fmap_ext _ snd); [apply fmap_sublist, sublist_filter|].
    by intros i [k v] _.
Qed.

(** C4.  A pair is emitted exactly when the listing holds a file
    [<base name>_testcase.dita] together with the file [<base name>.dita];
    a testcase file without its base file gives no pair, no testcase file
    is paired twice, and the listing [foo.dita], [foo_testcase.dita],
    [bar_testcase.dita] gives the single pair
    ([foo.dita], [foo_testcase.dita]). *)
Theorem matched_files_exactly :
  (∀ (listing : list string) (base_file testcase_file : string),
     (base_file, testcase_file) ∈ matched_files listing ↔
     ∃ base_name,
       testcase_file = base_name +:+ "_testcase.dita" ∧
       base_file = base_name +:+ ".dita" ∧
       testcase_file ∈ listing ∧ base_file ∈ listing)
  ∧ (∀ listing : list string, NoDup (matched_files listing).*2)
  ∧ matched_files ["foo.dita"; "foo_testcase.dita"; "bar_testcase.dita"]
    = [("foo.dita", "foo_testcase.dita")].
Proof.
  split_and!.
  - apply matched_files_elem.
  - apply matched_files_NoDup.
  - vm_compute. reflexivity.
Qed.

(** ** Note collection *)

Section notes.

Implicit Types (st : note_state) (l acc : list string).

Lemma first_occurrences_filter (Q : string → Prop) `{!∀ x, Decision (Q x)} l :
  first_occurrences (filter Q l) = filter Q (first_occurrences l).
Proof.
  induction l as [|x l IH]; [done|]. simpl.
  destruct (decide (Q x)) as [Hx|Hx].
  - rewrite !filter_cons_True by done. simpl. rewrite IH. f_equal.
    rewrite !list_filter_filter. apply list_filter_iff. tauto.
  - rewrite !filter_cons_False by done. rewrite IH.
    rewrite list_filter_filter. apply list_filter_iff.
    intros y. split; [|tauto]. intros Hy. split; [done|]. by intros ->.
Qed.

Lemma elem_of_first_occurrences l x : x ∈ first_occurrences l ↔ x ∈ l.
Proof.
  induction l as [|y l IH]; [done|]. simpl.
  rewrite !elem_of_cons, list_elem_of_filter, IH.
  destruct (decide (x = y)); tauto.
Qed.

Lemma NoDup_first_occurrences l : NoDup (first_occurrences l).
Proof.
  induction l as [|y l IH]; simpl; [constructor|].
  apply NoDup_cons. split; [|by apply NoDup_filter].
  rewrite list_elem_of_filter. tauto.
Qed.

Lemma collect_app acc l1 l2 : collect acc (l1 ++ l2) = collect (collect acc l1) l2.
Proof. apply fold_left_app. Qed.

Lemma collect_spec acc l :
  collect acc l
  = acc ++ first_occurrences (filter (λ t, PyStr.truthy t = true ∧ t ∉ acc) l).
Proof.
  revert acc. induction l as [|t l IH]; intros acc.
  - simpl. by rewrite app_nil_r.
  - unfold collect. simpl. fold (collect (if PyStr.truthy t && bool_decide (t ∉ acc)
                                          then acc ++ [t] else acc) l).
    destruct (PyStr.truthy t) eqn:Ht; simpl.
    + destruct (decide (t ∉ acc)) as [Hin|Hin].
      * rewrite bool_decide_eq_true_2 by done.
        rewrite filter_cons_True by done. simpl.
        rewrite IH, <-app_assoc. simpl. do 2 f_equal.
        rewrite <-first_occurrences_filter, list_filter_filter.
        f_equal. apply list_filter_iff. intros y.
        rewrite elem_of_app, list_elem_of_singleton. tauto.
      * rewrite bool_decide_eq_false_2 by done.
        rewrite filter_cons_False by tauto. apply IH.
    + rewrite filter_cons_False by (intros [? _]; congruence). apply IH.
Qed.

Lemma collect_nil l :
  collect [] l = first_occurrences (filter (λ t, PyStr.truthy t = true) l).
Proof.
  rewrite collect_spec. simpl. f_equal. apply list_filter_iff.
  intros t. rewrite elem_of_nil. tauto.
Qed.

Lemma note_step_collect st sibling :
  coherent st →
  coherent (note_step st sibling)
  ∧ xd_notes (note_step st sibling)
    = collect (xd_notes st) [Soup.get_text_strip sibling].
Proof.
  unfold coherent, note_step, collect. intros Hst. simpl.
  assert (bool_decide (Soup.get_text_strip sibling ∉ seen_notes st)
          = bool_decide (Soup.get_text_strip sibling ∉ xd_notes st)) as ->.
  { apply bool_decide_ext. by rewrite Hst, elem_of_list_to_set. }
  destruct (_ && _); simpl; [|done].
  by rewrite list_to_set_snoc_L, Hst.
Qed.

Lemma note_siblings_collect st siblings :
  coherent st →
  coherent (fold_left note_step siblings st)
  ∧ xd_notes (fold_left note_step siblings st)
    = collect (xd_notes st) (Soup.get_text_strip <$> siblings).
Proof.
  revert st. induction siblings as [|n siblings IH]; intros st Hst; [done|].
  simpl. destruct (note_step_collect st n Hst) as [Hc Hx].
  destruct (IH _ Hc) as [Hc' Hx']. split; [done|].
  rewrite Hx', Hx. symmetry. apply (collect_app _ [_]).
Qed.

Lemma note_markers_collect entry st ps :
  coherent st →
  coherent (fold_left (note_marker_step entry) ps st)
  ∧ xd_notes (fold_left (note_marker_step entry) ps st)
    = collect (xd_notes st)
        (filter is_marker ps ≫=
           λ _, Soup.get_text_strip <$> Soup.find_all_of ["li"; "p"] entry).
Proof.
  revert st. induction ps as [|p ps IH]; intros st Hst; [done|].
  simpl. unfold note_marker_step at 2 4.
  destruct (decide (is_marker p)) as [Hp|Hp].
  - rewrite bool_decide_eq_true_2, filter_cons_True by done.
    destruct (note_siblings_collect st (Soup.find_all_of ["li"; "p"] entry) Hst)
      as [Hc Hx].
    destruct (IH _ Hc) as [Hc' Hx']. split; [done|].
    by rewrite Hx', Hx, bind_cons, collect_app.
  - rewrite bool_decide_eq_false_2, filter_cons_False by done. by apply IH.
Qed.

Lemma note_entries_collect st entries :
  coherent st →
  let st' :=
    fold_left
      (λ st entry, fold_left (note_marker_step entry) (Soup.find_all "p" entry) st)
      entries st in
  coherent st'
  ∧ xd_notes st'
    = collect (xd_notes st)
        (entries ≫= λ entry,
           filter is_marker (Soup.find_all "p" entry) ≫=
             λ _, Soup.get_text_strip <$> Soup.find_all_of ["li"; "p"] entry).
Proof.
  revert st. induction entries as [|e entries IH]; intros st Hst; [done|].
  simpl. destruct (note_markers_collect e st (Soup.find_all "p" e) Hst) as [Hc Hx].
  destruct (IH _ Hc) as [Hc' Hx']. split; [done|].
  by rewrite Hx', Hx, collect_app.
Qed.

Lemma note_scan_spec soup :
  xd_notes (note_scan soup)
  = first_occurrences (filter (λ t, PyStr.truthy t = true) (note_candidates soup)).
Proof.
  unfold note_scan.
  destruct (note_entries_collect {| xd_notes := []; seen_notes := ∅ |}
              (Soup.find_all "entry" soup)) as [_ ->]; [done|].
  apply collect_nil.
Qed.

End notes.

(** C5.  The collected notes are the non-empty texts met by the scan with
    every text kept at its first occurrence only; the comparison is exact
    string equality, it runs across all entries that hold the marker, and
    the function returns that list joined by line feeds.  Texts met in the
    order x, y, x, z give the list x, y, z. *)
Theorem xd_notes_first_occurrences :
  (∀ soup : node,
     xd_notes (note_scan soup)
     = first_occurrences (filter (λ t, PyStr.truthy t = true) (note_candidates soup)))
  ∧ (∀ soup : node, NoDup (xd_notes (note_scan soup)))
  ∧ (∀ (fs : filesystem) (file_path : string) (soup : node),
       extract_xd_note (<[file_path := Parsed soup]> fs) file_path
       = (PyStr.join NL (xd_notes (note_scan soup)), []))
  ∧ xd_notes (fold_left note_step [li "x"; li "y"; li "x"; li "z"]
                {| xd_notes := []; seen_notes := ∅ |})
    = ["x"; "y"; "z"]
  ∧ xd_notes (note_scan notes_soup) = ["xd note"; "x"; "y"; "XD Note"; "z"].
Proof.
  split_and!.
  - apply note_scan_spec.
  - intros soup. rewrite note_scan_spec. apply NoDup_first_occurrences.
  - intros fs file_path soup. unfold extract_xd_note, read_soup.
    by rewrite lookup_insert_eq.
  - vm_compute. reflexivity.
  - vm_compute. reflexivity.
Qed.



(** ** Step records *)

Section step_records.

Lemma section_fold (section_name : string) (dlentries : list node) (content : list string) :
  fold_left (section_step section_name) dlentries content
  = content ++ omap (section_match section_name) dlentries.
Proof.
  revert content. induction dlentries as [|d ds IH]; intros content; simpl.
  - by rewrite app_nil_r.
  - rewrite IH. unfold section_step, section_match, term_of, description_of.
    destruct (Soup.find "dt" d) as [dt|]; simpl; [|done].
    destruct (Soup.find "dd" d) as [dd|]; simpl; [|done].
    destruct (PyStr.contains _ _); [|done]. by rewrite <-app_assoc.
Qed.

Lemma extract_section_content_spec (soup : node) (section_name : string) :
  extract_section_content soup section_name = section_text soup section_name.
Proof. unfold extract_section_content. by rewrite section_fold. Qed.

Lemma custom_fields_fold (soup : node) (dlentries : list node) (acc : list StepRecord) :
  fold_left (custom_fields_step soup) dlentries acc
  = acc ++ (step_record (section_text soup "Expected Results")
                        (section_text soup "Procedures")
                        (section_text soup "Notes")
            <$> omap qualifying_term dlentries).
Proof.
  revert acc. induction dlentries as [|d ds IH]; intros acc; simpl.
  - by rewrite app_nil_r.
  - rewrite IH. unfold custom_fields_step, qualifying_term, term_of.
    destruct (Soup.find "dt" d) as [dt|]; cbn -[PyStr.startswith]; [|done].
    destruct (PyStr.startswith _ _); [|done].
    rewrite !extract_section_content_spec. by rewrite <-app_assoc.
Qed.


End step_records.

(** C3.  The step records of a testcase document are, in document order,
    one record per definition-list entry whose term starts with [R]; its
    Action is the term between asterisks, a line feed and the Procedures
    text, its Data is [*Notes:*], a line feed and the Notes text, and its
    Expected Result is the Expected Results text; each section text joins by
    line feeds the descriptions of all entries of the document whose term
    contains the section name, letter case set aside. *)
Theorem step_records_per_term :
  (∀ soup : node,
     custom_fields_of soup
     = (λ term,
          {| Action := "*" +:+ term +:+ "*" +:+ NL +:+ section_text soup "Procedures";
             Data := "*Notes:*" +:+ NL +:+ section_text soup "Notes";
             Expected_Result := section_text soup "Expected Results" |})
       <$> qualifying_terms soup)
  ∧ (∀ (soup : node) (section_name : string),
       extract_section_content soup section_name = section_text soup section_name)
  ∧ (∀ (fs : filesystem) (file_path : string) (soup : node),
       (parse_testcase_dita (<[file_path := Parsed soup]> fs) file_path).1.2
       = Some (custom_fields_of soup))
  ∧ custom_fields_of steps_soup
    = [ {| Action := "*R1*" +:+ NL +:+ "open" +:+ NL +:+ "type";
           Data := "*Notes:*" +:+ NL +:+ "none";
           Expected_Result := "shown" |};
        {| Action := "*R2*" +:+ NL +:+ "open" +:+ NL +:+ "type";
           Data := "*Notes:*" +:+ NL +:+ "none";
           Expected_Result := "shown" |} ].
Proof.
  split_and!.
  - intros soup. unfold custom_fields_of, qualifying_terms.
    by rewrite custom_fields_fold.
  - apply extract_section_content_spec.
  - intros fs file_path soup.
    unfold parse_testcase_dita, extract_xd_note, read_soup.
    by rewrite lookup_insert_eq.
  - vm_compute. reflexivity.
Qed.


(** ** Row assembly *)

Section rows.

Lemma process_pair_spec (fs : filesystem) (input_folder : string)
    (data : list Row) (matched : string * string) :
  process_pair fs input_folder data matched
  = (data ++ option_list (pair_row fs input_folder matched),
     pair_prints fs input_folder matched).
Proof.
  destruct matched as [base_file testcase_file].
  unfold process_pair, pair_row, pair_prints, base_title, testcase_title,
    mbind, Out_bind, mret, Out_ret.
  cbn [fst snd].
  destruct (extract_premise_and_requirement fs _) as [cfp l1].
  destruct (parse_dita fs _) as [[[[bt bd] pr] rq] l2].
  destruct (parse_testcase_dita fs _) as [[[tt xn] cf] l3].
  cbn [fst snd].
  destruct (truthy_opt bt && truthy_opt tt); cbn [fst snd option_list];
    by rewrite ?app_nil_r.
Qed.

Lemma process_pairs_spec (fs : filesystem) (input_folder : string)
    (pairs : list (string * string)) (data : list Row) :
  process_pairs fs input_folder data pairs
  = (data ++ omap (pair_row fs input_folder) pairs,
     pairs ≫= pair_prints fs input_folder).
Proof.
  revert data. induction pairs as [|matched pairs IH]; intros data.
  - simpl. by rewrite app_nil_r.
  - cbn [process_pairs]. unfold mbind at 1, Out_bind.
    rewrite process_pair_spec. cbn [fst snd]. rewrite IH.
    rewrite bind_cons, <-app_assoc. f_equal. f_equal.
    cbn [omap list_omap]. by destruct (pair_row fs input_folder matched).
Qed.

Lemma process_folder_spec (fs : filesystem) (input_folder : string)
    (listing : list string) (output_csv : string) :
  process_folder fs input_folder listing output_csv
  = (header :: omap (pair_row fs input_folder) (matched_files listing),
     (matched_files listing ≫= pair_prints fs input_folder)
     ++ ["CSV file created successfully: " +:+ output_csv]).
Proof.
  unfold process_folder, mbind, Out_bind, mret, Out_ret, print.
  rewrite process_pairs_spec. cbn [fst snd]. by rewrite app_nil_r.
Qed.

End rows.

Section titles.

Lemma strip_all_space (s : string) : all_space s = true → PyStr.strip s = EmptyString.
Proof.
  unfold PyStr.strip. induction s as [|c s IH]; [done|]. simpl.
  intros [Hc Hs]%andb_true_iff. rewrite Hc. by apply IH.
Qed.

Lemma get_text_strip_blank (tag : node) :
  Forall (λ s, all_space s = true) (Soup.strings tag) →
  Soup.get_text_strip tag = EmptyString.
Proof.
  unfold Soup.get_text_strip. induction 1 as [|s l Hs _ IH]; [done|].
  rewrite fmap_cons, filter_cons_False; [done|].
  by rewrite (strip_all_space s Hs).
Qed.



Lemma base_title_parsed (fs : filesystem) (file_path : string) (soup : node) :
  fs !! file_path = Some (Parsed soup) →
  base_title fs file_path = Some (title_of soup).
Proof. unfold base_title, parse_dita, read_soup. by intros ->. Qed.

Lemma testcase_title_parsed (fs : filesystem) (file_path : string) (soup : node) :
  fs !! file_path = Some (Parsed soup) →
  testcase_title fs file_path = Some (title_of soup).
Proof.
  unfold testcase_title, parse_testcase_dita, extract_xd_note, read_soup.
  by intros ->.
Qed.

Lemma pair_row_None_base (fs : filesystem) (input_folder : string)
    (matched : string * string) :
  truthy_opt (base_title fs (os_path_join input_folder matched.1)) = false →
  pair_row fs input_folder matched = None.
Proof. unfold pair_row. by intros ->. Qed.

Lemma pair_row_None_testcase (fs : filesystem) (input_folder : string)
    (matched : string * string) :
  truthy_opt (testcase_title fs (os_path_join input_folder matched.2)) = false →
  pair_row fs input_folder matched = None.
Proof. unfold pair_row. intros ->. by rewrite andb_false_r. Qed.

End titles.






(** C10.  When the first title element holds only white space (or no text
    at all), both parsers return the empty string as the title, not the
    fallback [Unknown Title], and a pair whose base or testcase document is
    such a document adds no row. *)
Theorem blank_title_omits_pair (soup title_tag : node) :
  Soup.find "title" soup = Some title_tag →
  Forall (λ s, all_space s = true) (Soup.strings title_tag) →
  title_of soup = EmptyString
  ∧ title_of soup ≠ "Unknown Title"
  ∧ ∀ (fs : filesystem) (input_folder base_file testcase_file : string)
      (data : list Row),
      (fs !! os_path_join input_folder base_file = Some (Parsed soup)
       → base_title fs (os_path_join input_folder base_file) = Some EmptyString
         ∧ (process_pair fs input_folder data (base_file, testcase_file)).1 = data)
      ∧ (fs !! os_path_join input_folder testcase_file = Some (Parsed soup)
         → testcase_title fs (os_path_join input_folder testcase_file)
           = Some EmptyString
           ∧ (process_pair fs input_folder data (base_file, testcase_file)).1 = data).
Proof.
  intros Hfind Hblank.
  assert (title_of soup = EmptyString) as Htitle.
  { unfold title_of. rewrite Hfind. by apply get_text_strip_blank. }
  split_and!; [done|by rewrite Htitle|].
  intros fs input_folder base_file testcase_file data. split; intros Hfs.
  - assert (base_title fs (os_path_join input_folder base_file) = Some EmptyString)
      as Hb by (by rewrite (base_title_parsed _ _ _ Hfs), Htitle).
    split; [done|]. rewrite process_pair_spec, pair_row_None_base.
    + cbn [fst option_list]. by rewrite app_nil_r.
    + cbn [fst]. by rewrite Hb.
  - assert (testcase_title fs (os_path_join input_folder testcase_file)
            = Some EmptyString)
      as Ht by (by rewrite (testcase_title_parsed _ _ _ Hfs), Htitle).
    split; [done|]. rewrite process_pair_spec, pair_row_None_testcase.
    + cbn [fst option_list]. by rewrite app_nil_r.
    + cbn [snd]. by rewrite Ht.
Qed.

Lemma blank_title_omits_pair_witness :
  (process_pair blank_title_fs "TRC" [] ("foo.dita", "foo_testcase.dita")).1 = [].
Proof.
  refine (proj2 (proj2 (proj2 (proj2
    (blank_title_omits_pair blank_title_soup
       (Elem "title" [Text "  "; Elem "ph" [Text NL]]) _ _))
    blank_title_fs "TRC" "foo.dita" "foo_testcase.dita" []) _)).
  - vm_compute. reflexivity.
  - vm_compute. repeat constructor.
  - vm_compute. reflexivity.
Defined.

(** ** Premise and Requirement block *)

(** C2.  On the paragraphs [Premise: A], [Requirement: B],
    [Requirement: C] the function returns the block of the specification.
    It does not in general append the remainder of a [Requirement:]
    paragraph with the prefix stripped: [str.replace] removes every
    occurrence of the literal, so the paragraph
    [Requirement: B, not Requirement: C] contributes [B, not  C] where the
    specification has [B, not Requirement: C]. *)
Theorem requirement_literal_removed_everywhere :
  (extract_premise_and_requirement
     (<[ "TRC/foo.dita" := Parsed claim_example_soup ]> ∅) "TRC/foo.dita").1
  = "Premise:" +:+ NL +:+ "A" +:+ NL +:+ "Requirement:" +:+ NL +:+ "B" +:+ NL +:+ "C"
  ∧ (extract_premise_and_requirement
       (<[ "TRC/foo.dita" := Parsed repeated_prefix_soup ]> ∅) "TRC/foo.dita").1
    = "Premise:" +:+ NL +:+ "A" +:+ NL +:+ "Requirement:" +:+ NL +:+ "B, not  C"
  ∧ premise_requirement_as_specified repeated_prefix_soup
    = "Premise:" +:+ NL +:+ "A" +:+ NL +:+ "Requirement:" +:+ NL
      +:+ "B, not Requirement: C"
  ∧ (extract_premise_and_requirement
       (<[ "TRC/foo.dita" := Parsed repeated_prefix_soup ]> ∅) "TRC/foo.dita").1
    ≠ premise_requirement_as_specified repeated_prefix_soup.
Proof.
  split_and!; [vm_compute; reflexivity..|].
  vm_compute. discriminate.
Qed.

Section premise_requirement.

Lemma fold_left_bind {A B S} (f : S → B → S) (g : A → list B) (l : list A) (s : S) :
  fold_left (λ s a, fold_left f (g a) s) l s = fold_left f (l ≫= g) s.
Proof.
  revert s. induction l as [|a l IH]; intros s; [done|].
  simpl. by rewrite fold_left_app, IH.
Qed.

Lemma fold_left_fmap {A B S} (f : S → B → S) (g : A → B) (l : list A) (s : S) :
  fold_left (λ s a, f s (g a)) l s = fold_left f (g <$> l) s.
Proof. revert s. induction l as [|a l IH]; intros s; [done|]. simpl. by rewrite IH. Qed.

Lemma premise_requirement_scan_texts (soup : node) :
  premise_requirement_scan soup
  = fold_left premise_requirement_text_step (paragraph_texts soup)
      {| pr_premise := EmptyString; pr_requirement := EmptyString |}.
Proof.
  unfold premise_requirement_scan, paragraph_texts.
  by rewrite fold_left_bind, <-fold_left_fmap.
Qed.

Lemma replace_from_skip (k : nat) (old s : string) :
  PyStr.replace_from k old EmptyString s
  = PyStr.replace_from 0 old EmptyString (drop_chars k s).
Proof.
  revert k. induction s as [|c s IH]; intros [|k]; try done.
  simpl. apply IH.
Qed.

Lemma replace_absent (old s : string) :
  PyStr.contains s old = false → PyStr.replace_from 0 old EmptyString s = s.
Proof.
  induction s as [|c s IH]; [done|].
  cbn [PyStr.contains PyStr.replace_from].
  intros [Hs Hc]%orb_false_iff. rewrite Hs. f_equal. by apply IH.
Qed.

Lemma contains_app_r (s r old : string) :
  PyStr.contains (s +:+ r) old = false → PyStr.contains r old = false.
Proof.
  induction s as [|c s IH]; [done|]. rewrite str_app_cons.
  cbn [PyStr.contains]. intros [_ H]%orb_false_iff. by apply IH.
Qed.

Lemma drop_chars_app (s r : string) : drop_chars (String.length s) (s +:+ r) = r.
Proof. induction s as [|c s IH]; [by destruct r|]. by rewrite str_app_cons. Qed.

(** Where the literal does not recur, [replace] removes just the prefix. *)
Lemma replace_prefix_only (pre text : string) :
  pre ≠ EmptyString →
  PyStr.startswith text pre = true →
  no_later_occurrence pre text →
  PyStr.replace text pre EmptyString = drop_chars (String.length pre) text.
Proof.
  intros Hpre [r ->]%startswith_spec Hno.
  rewrite drop_chars_app. destruct pre as [|a pre]; [done|].
  unfold PyStr.replace. rewrite str_app_cons in *.
  cbn [PyStr.replace_from no_later_occurrence] in *.
  rewrite <-str_app_cons, (proj2 (startswith_spec _ _)) by by exists r.
  rewrite str_app_nil_l, replace_from_skip. cbn [String.length].
  replace (S (String.length pre) - 1) with (String.length pre) by lia.
  rewrite drop_chars_app.
  apply replace_absent. by apply contains_app_r in Hno.
Qed.

Lemma premise_not_requirement (text : string) :
  PyStr.startswith text "Premise:" = true →
  PyStr.startswith text "Requirement:" = false.
Proof. by intros [r ->]%startswith_spec. Qed.

Lemma text_steps_spec (texts : list string) (st : pr_state) :
  Forall (λ t, no_later_occurrence "Premise:" t
               ∧ no_later_occurrence "Requirement:" t) texts →
  fold_left premise_requirement_text_step texts st
  = {| pr_premise :=
         default (pr_premise st)
           (last (remainder "Premise:"
                  <$> filter (λ t, PyStr.startswith t "Premise:" = true) texts));
       pr_requirement :=
         pr_requirement st
         +:+ foldr (λ t acc, remainder "Requirement:" t +:+ NL +:+ acc) EmptyString
               (filter (λ t, PyStr.startswith t "Requirement:" = true) texts) |}.
Proof.
  intros Hno. revert st.
  induction Hno as [|t texts [HP HR] _ IH]; intros [pm rq].
  - simpl. by rewrite str_app_nil_r.
  - cbn [fold_left]. rewrite IH. unfold premise_requirement_text_step.
    destruct (PyStr.startswith t "Premise:") eqn:EP.
    + rewrite filter_cons_True by done.
      rewrite (filter_cons_False _ t) by (by rewrite premise_not_requirement).
      rewrite fmap_cons, last_cons. cbn [pr_premise pr_requirement].
      rewrite replace_prefix_only by done. unfold remainder at 3.
      by destruct (last _).
    + rewrite filter_cons_False by congruence.
      destruct (PyStr.startswith t "Requirement:") eqn:ER.
      * rewrite filter_cons_True by done. cbn [pr_premise pr_requirement foldr].
        rewrite replace_prefix_only by done. unfold remainder at 4.
        by rewrite !str_app_assoc.
      * by rewrite filter_cons_False by congruence.
Qed.

(** The function returns the block of the specification for every
    document in which no visited paragraph repeats one of the two
    literals. *)
Lemma premise_requirement_agrees (soup : node) :
  Forall (λ t, no_later_occurrence "Premise:" t
               ∧ no_later_occurrence "Requirement:" t) (paragraph_texts soup) →
  premise_requirement_format (premise_requirement_scan soup)
  = premise_requirement_as_specified soup.
Proof.
  intros Hno. rewrite premise_requirement_scan_texts, (text_steps_spec _ _ Hno).
  reflexivity.
Qed.

End premise_requirement.

(** ** The requirements value and the row *)

Section find_all_facts.




End find_all_facts.

Section requirements_variants.

Implicit Types (c : node) (names : list string).







End requirements_variants.

Section requirements_discarded.

Lemma parse_dita_step_view (st : dita_state) (dlentry : node) :
  parse_dita_step st dlentry = parse_dita_view_step st (dl_view dlentry).
Proof.
  unfold parse_dita_step, parse_dita_view_step, dl_view, term_of, description_of.
  destruct (Soup.find "dt" dlentry); [|done]. by destruct (Soup.find "dd" dlentry).
Qed.

Lemma parse_dita_scan_views (soup : node) :
  parse_dita_scan soup
  = fold_left parse_dita_view_step (dl_view <$> Soup.find_all "dlentry" soup)
      {| description := []; premise := EmptyString; requirements := EmptyString |}.
Proof.
  unfold parse_dita_scan. rewrite <-fold_left_fmap.
  generalize {| description := []; premise := EmptyString;
                requirements := EmptyString |}.
  induction (Soup.find_all "dlentry" soup) as [|d ds IH]; intros st; [done|].
  simpl. by rewrite parse_dita_step_view, IH.
Qed.








End requirements_discarded.




(** * Further properties *)

(** ** The second extractor of the base document *)

Section parse_dita_facts.

Lemma default_last_cons {A} (d x : A) (l : list A) :
  default d (last (x :: l)) = default x (last l).
Proof. rewrite last_cons. by destruct (last l). Qed.

Lemma term_descriptions_views (soup : node) :
  term_descriptions soup = omap view_pair (dl_view <$> Soup.find_all "dlentry" soup).
Proof.
  unfold term_descriptions. induction (Soup.find_all "dlentry" soup) as [|d ds IH]; [done|].
  rewrite fmap_cons. cbn [omap list_omap]. by rewrite IH.
Qed.

Lemma view_steps_spec (views : list (option string * option string)) (st : dita_state) :
  let pairs := omap view_pair views in
  fold_left parse_dita_view_step views st
  = {| description :=
         description st ++ ((λ tb, tb.1 +:+ ":" +:+ NL +:+ tb.2) <$> free_form pairs);
       premise := default (premise st) (last ((with_header "premise" pairs).*2));
       requirements :=
         default (requirements st) (last ((with_header "requirements" pairs).*2)) |}.
Proof.
  revert st. induction views as [|[[term|] [body|]] views IH]; intros [ds pm rq];
    cbn [fold_left omap list_omap view_pair mbind option_bind fst snd];
    try (rewrite IH; reflexivity).
  - cbn. by rewrite app_nil_r.
  - rewrite IH. unfold parse_dita_view_step, free_form, with_header.
    cbn [description premise requirements].
    destruct (decide (PyStr.lower term = "premise")) as [Hp|Hp].
    + rewrite bool_decide_eq_true_2 by done.
      rewrite (filter_cons_True (λ tb, PyStr.lower tb.1 = "premise")) by done.
      rewrite filter_cons_False by (cbn; tauto).
      rewrite (filter_cons_False (λ tb, PyStr.lower tb.1 = "requirements"))
        by (cbn; by rewrite Hp).
      rewrite fmap_cons. cbn [snd description premise requirements].
      by rewrite default_last_cons.
    + rewrite (bool_decide_eq_false_2 (PyStr.lower term = "premise")) by done.
      rewrite (filter_cons_False (λ tb, PyStr.lower tb.1 = "premise")) by done.
      destruct (decide (PyStr.lower term = "requirements")) as [Hr|Hr].
      * rewrite bool_decide_eq_true_2 by done.
        rewrite (filter_cons_True (λ tb, PyStr.lower tb.1 = "requirements")) by done.
        rewrite filter_cons_False by (cbn; tauto).
        rewrite fmap_cons. cbn [snd description premise requirements].
        by rewrite default_last_cons.
      * rewrite bool_decide_eq_false_2 by done.
        rewrite (filter_cons_False (λ tb, PyStr.lower tb.1 = "requirements")) by done.
        rewrite filter_cons_True by done.
        rewrite fmap_cons. cbn [fst snd description premise requirements].
        by rewrite <-app_assoc.
Qed.

End parse_dita_facts.

(** X1.  For a file that parses, [parse_dita] returns the title, the
    free-form description, the premise and the requirements, none of them
    [None], and prints nothing.  The description holds, in document order
    and joined by blank lines, [<term>:], a line feed and the description
    of every entry that has a term and a description and whose term,
    lower-cased, is neither [premise] nor [requirements]; the premise and the
    requirements are the description of the last entry with that term, or
    the empty string when there is none. *)
Theorem parse_dita_returns (fs : filesystem) (file_path : string) (soup : node) :
  parse_dita (<[file_path := Parsed soup]> fs) file_path
  = ((Some (title_of soup),
      Some (PyStr.join (NL +:+ NL)
              ((λ tb, tb.1 +:+ ":" +:+ NL +:+ tb.2)
               <$> free_form (term_descriptions soup))),
      Some (default EmptyString
              (last ((with_header "premise" (term_descriptions soup)).*2))),
      Some (default EmptyString
              (last ((with_header "requirements" (term_descriptions soup)).*2)))),
     []).
Proof.
  unfold parse_dita, read_soup. rewrite lookup_insert_eq.
  rewrite parse_dita_scan_views, view_steps_spec, <-term_descriptions_views.
  reflexivity.
Qed.

(** ** Rows and printed lines of a run *)

Section run_facts.

Lemma truthy_base_title_parsed (fs : filesystem) (file_path : string) :
  truthy_opt (base_title fs file_path) = true →
  ∃ soup, read_soup fs file_path = inr soup.
Proof.
  unfold base_title, parse_dita. destruct (read_soup fs file_path) as [e|soup]; [done|].
  by exists soup.
Qed.

Lemma truthy_testcase_title_parsed (fs : filesystem) (file_path : string) :
  truthy_opt (testcase_title fs file_path) = true →
  ∃ soup, read_soup fs file_path = inr soup.
Proof.
  unfold testcase_title, parse_testcase_dita.
  destruct (read_soup fs file_path) as [e|soup]; [done|]. by exists soup.
Qed.

Lemma pair_row_shape (fs : filesystem) (input_folder : string)
    (matched : string * string) (row : Row) :
  pair_row fs input_folder matched = Some row →
  ∃ summary description block steps notes,
    row = [Some summary; Some description; Some block; Some steps; Some notes]
    ∧ summary ≠ EmptyString.
Proof.
  unfold pair_row.
  destruct (truthy_opt (base_title _ _)) eqn:Hb; [|done].
  destruct (truthy_opt (testcase_title _ _)) eqn:Ht; [|done].
  cbn [andb]. intros [= <-].
  destruct (truthy_base_title_parsed _ _ Hb) as [bsoup Hbs].
  destruct (truthy_testcase_title_parsed _ _ Ht) as [tsoup Hts].
  unfold base_title in Hb. revert Hb.
  unfold parse_dita, parse_testcase_dita, extract_xd_note. rewrite Hbs, Hts.
  cbn [fst snd mret Out_ret mbind Out_bind]. intros Hb.
  do 5 eexists. split; [reflexivity|]. by destruct (title_of bsoup).
Qed.


End run_facts.

(** X2.  The premise that [parse_dita] returns is not written either: two
    runs whose base extraction agrees on the title, the description and the
    table-cell block, and whose testcase extraction agrees, assemble the
    same rows whatever the third and fourth components of [parse_dita]
    are. *)
Theorem premise_value_not_in_row (fs fs' : filesystem) (input_folder : string)
    (data : list Row) (matched : string * string) :
  (extract_premise_and_requirement fs (os_path_join input_folder matched.1)).1
  = (extract_premise_and_requirement fs' (os_path_join input_folder matched.1)).1 →
  (parse_dita fs (os_path_join input_folder matched.1)).1.1.1
  = (parse_dita fs' (os_path_join input_folder matched.1)).1.1.1 →
  (parse_testcase_dita fs (os_path_join input_folder matched.2)).1
  = (parse_testcase_dita fs' (os_path_join input_folder matched.2)).1 →
  (process_pair fs input_folder data matched).1
  = (process_pair fs' input_folder data matched).1.
Proof.
  intros Hcfp Hbase Htc. rewrite !process_pair_spec. cbn [fst]. do 2 f_equal.
  unfold pair_row, base_title, testcase_title. by rewrite Hcfp, Hbase, Htc.
Qed.

Lemma premise_value_not_in_row_witness :
  (parse_dita (requirements_fs (premise_entry_soup "one")) "TRC/foo.dita").1.1.2
  ≠ (parse_dita (requirements_fs (premise_entry_soup "two")) "TRC/foo.dita").1.1.2
  ∧ (process_pair (requirements_fs (premise_entry_soup "one")) "TRC" []
       ("foo.dita", "foo_testcase.dita")).1
    = (process_pair (requirements_fs (premise_entry_soup "two")) "TRC" []
         ("foo.dita", "foo_testcase.dita")).1.
Proof.
  split; [vm_compute; discriminate|].
  apply (premise_value_not_in_row
           (requirements_fs (premise_entry_soup "one"))
           (requirements_fs (premise_entry_soup "two"))
           "TRC" [] ("foo.dita", "foo_testcase.dita"));
    vm_compute; reflexivity.
Defined.

(** X3.  Every row handed to the writer has exactly five cells and none of
    them is [None]; in every row after the header the first cell, the
    summary, is a non-empty string. *)
Theorem rows_have_five_strings (fs : filesystem) (input_folder output_csv : string)
    (listing : list string) :
  Forall (λ row : Row, length row = 5 ∧ Forall is_Some row)
    (process_folder fs input_folder listing output_csv).1
  ∧ Forall (λ row : Row, ∃ summary, head row = Some (Some summary)
                                   ∧ summary ≠ EmptyString)
      (tail (process_folder fs input_folder listing output_csv).1).
Proof.
  rewrite process_folder_spec. cbn [fst tail]. split.
  - constructor; [split; [done|by repeat constructor]|].
    apply Forall_forall. intros row (matched & _ & Hrow)%list_elem_of_omap.
    apply pair_row_shape in Hrow as (s & d & b & j & n & -> & _).
    split; [done|by repeat constructor].
  - apply Forall_forall. intros row (matched & _ & Hrow)%list_elem_of_omap.
    apply pair_row_shape in Hrow as (s & d & b & j & n & -> & Hs). by exists s.
Qed.


(** ** Order of the pairs *)

Section pairing_order.

Lemma dict_set_fresh (d : list (string * string)) (k v : string) :
  k ∉ d.*1 → dict_set d k v = d ++ [(k, v)].
Proof.
  induction d as [|[k' v'] d IH]; [done|]. cbn [dict_set fmap list_fmap fst].
  rewrite elem_of_cons. intros Hk.
  destruct (decide (k' = k)) as [->|_]; [tauto|].
  rewrite IH by tauto. done.
Qed.

Lemma dict_fold_fresh (key : string → string) (l : list string)
    (d : list (string * string)) :
  NoDup (key <$> l) →
  (∀ f, f ∈ l → key f ∉ d.*1) →
  fold_left (λ d f, dict_set d (key f) f) l d = d ++ ((λ f, (key f, f)) <$> l).
Proof.
  revert d. induction l as [|f l IH]; intros d Hnd Hd.
  - by rewrite app_nil_r.
  - rewrite fmap_cons in Hnd. apply NoDup_cons in Hnd as [Hf Hnd].
    cbn [fold_left]. rewrite dict_set_fresh by (apply Hd; by left).
    rewrite IH; [by rewrite <-app_assoc|done|].
    intros f' Hf'. rewrite fmap_app, elem_of_app. intros [Hin|Hin].
    + apply (Hd f'); [by right|done].
    + cbn in Hin. apply list_elem_of_singleton in Hin.
      apply Hf. rewrite <-Hin. by apply list_elem_of_fmap_2.
Qed.

Lemma testcase_is_dita (f : string) :
  PyStr.endswith f "_testcase.dita" = true → PyStr.endswith f ".dita" = true.
Proof.
  intros [b ->]%endswith_spec. apply endswith_spec.
  exists (b +:+ "_testcase"). by rewrite str_app_assoc.
Qed.

Lemma base_files_in_order (files : list string) :
  NoDup files →
  base_files files
  = (λ f, (PyStr.rsplit1_head f "_testcase.dita", f))
    <$> filter (λ f, PyStr.endswith f "_testcase.dita" = true) files.
Proof.
  intros Hnd. unfold base_files. rewrite dict_fold_fresh; [done| |].
  - apply NoDup_fmap_2_strong; [|by apply NoDup_filter].
    intros f f' [Hf _]%list_elem_of_filter [Hf' _]%list_elem_of_filter Hkey.
    apply endswith_spec in Hf as [b ->]. apply endswith_spec in Hf' as [b' ->].
    rewrite !rsplit1_head_app in Hkey by done. by rewrite Hkey.
  - intros f _. apply not_elem_of_nil.
Qed.

Lemma pairs_in_order (L l : list string) :
  (λ '(base_name, testcase_file), (base_name +:+ ".dita", testcase_file))
  <$> filter (λ '(base_name, _), base_name +:+ ".dita" ∈ dita_files L)
        ((λ f, (PyStr.rsplit1_head f "_testcase.dita", f))
         <$> filter (λ f, PyStr.endswith f "_testcase.dita" = true) (dita_files l))
  = omap (pair_of L) l.
Proof.
  induction l as [|f l IH]; [done|].
  change (dita_files (f :: l))
    with (filter (λ f, PyStr.endswith f ".dita" = true) (f :: l)).
  rewrite filter_cons. fold (dita_files l).
  cbn [omap list_omap]. unfold pair_of at 1.
  destruct (decide (PyStr.endswith f "_testcase.dita" = true)) as [Ht|Ht].
  - rewrite decide_True by by apply testcase_is_dita.
    rewrite filter_cons_True by done. rewrite fmap_cons, filter_cons.
    pose proof (dita_files_elem L (PyStr.rsplit1_head f "_testcase.dita") EmptyString)
      as Hmem. rewrite str_app_nil_l in Hmem.
    destruct (decide (PyStr.rsplit1_head f "_testcase.dita" +:+ ".dita" ∈ L)) as [Hin|Hin].
    + rewrite decide_True by by apply Hmem. rewrite decide_True by done.
      rewrite fmap_cons. by rewrite IH.
    + rewrite decide_False by (by rewrite Hmem). rewrite decide_False by tauto.
      apply IH.
  - rewrite (decide_False (P := _ ∧ _)) by tauto.
    destruct (decide (PyStr.endswith f ".dita" = true)); [|apply IH].
    rewrite filter_cons_False by done. apply IH.
Qed.

End pairing_order.

(** X5.  For a listing without repeated names, as a directory listing is,
    the pairs come in the order in which their testcase files stand in the
    listing: every file that ends in [_testcase.dita] and whose base file is
    listed gives its pair, in place. *)
Theorem matched_files_in_listing_order (listing : list string) :
  NoDup listing →
  matched_files listing = omap (pair_of listing) listing.
Proof.
  intros Hnd. unfold matched_files.
  rewrite base_files_in_order by by apply NoDup_filter.
  apply pairs_in_order.
Qed.

Lemma matched_files_in_listing_order_witness :
  matched_files ["b_testcase.dita"; "a.dita"; "notes.txt"; "b.dita"; "a_testcase.dita"]
  = [("b.dita", "b_testcase.dita"); ("a.dita", "a_testcase.dita")].
Proof.
  rewrite (matched_files_in_listing_order
             ["b_testcase.dita"; "a.dita"; "notes.txt"; "b.dita"; "a_testcase.dita"]).
  - vm_compute. reflexivity.
  - apply (bool_decide_unpack _). vm_compute. exact I.
Defined.

(** ** Which notes are collected *)

Section note_facts.

Lemma filter_none {A} (P : A → Prop) `{!∀ x, Decision (P x)} (l : list A) :
  (∀ x, x ∈ l → ¬ P x) → filter P l = [].
Proof.
  induction l as [|x l IH]; [done|]. intros Hl.
  rewrite filter_cons_False by (apply Hl; by left).
  apply IH. intros y Hy. apply Hl. by right.
Qed.

Lemma elem_of_collect (acc l : list string) (t : string) :
  t ∈ collect acc l ↔ t ∈ acc ∨ (PyStr.truthy t = true ∧ t ∈ l).
Proof.
  rewrite collect_spec, elem_of_app, elem_of_first_occurrences, list_elem_of_filter.
  destruct (decide (t ∈ acc)); tauto.
Qed.

Lemma collect_absorb (acc l : list string) :
  (∀ t, t ∈ l → PyStr.truthy t = true → t ∈ acc) → collect acc l = acc.
Proof.
  intros Hl. rewrite collect_spec.
  rewrite filter_none; [by rewrite app_nil_r|].
  intros t Ht [Htr Hacc]. by apply Hacc, Hl.
Qed.

Lemma collect_twice (acc l : list string) :
  collect (collect acc l) l = collect acc l.
Proof.
  apply collect_absorb. intros t Ht Htr. apply elem_of_collect. by right.
Qed.

Lemma collect_repeated (acc texts : list string) (markers : list node) :
  collect acc (markers ≫= λ _, texts)
  = match markers with [] => acc | _ :: _ => collect acc texts end.
Proof.
  revert acc. induction markers as [|m ms IH]; intros acc; [done|].
  rewrite bind_cons, collect_app, IH.
  destruct ms; [done|]. apply collect_twice.
Qed.

Lemma collect_marker_entries (entries : list node) (acc : list string) :
  collect acc
    (entries ≫= λ entry,
       filter is_marker (Soup.find_all "p" entry) ≫= λ _, sibling_texts entry)
  = collect acc (filter has_marker entries ≫= sibling_texts).
Proof.
  revert acc. induction entries as [|e es IH]; intros acc; [done|].
  rewrite bind_cons, collect_app, collect_repeated, filter_cons.
  unfold has_marker at 1.
  destruct (filter is_marker (Soup.find_all "p" e)) as [|m ms] eqn:Hm.
  - rewrite decide_False; [apply IH|].
    intros (p & Hp & Hmark)%Exists_exists.
    assert (p ∈ filter is_marker (Soup.find_all "p" e)) as Hin
      by by apply list_elem_of_filter.
    rewrite Hm in Hin. by apply elem_of_nil in Hin.
  - rewrite decide_True.
    + by rewrite bind_cons, collect_app, IH.
    + assert (m ∈ filter is_marker (Soup.find_all "p" e)) as Hin
        by (rewrite Hm; by left).
      apply list_elem_of_filter in Hin as [Hmark Hin].
      apply Exists_exists. by exists m.
Qed.

Lemma note_scan_marker_entries (soup : node) :
  xd_notes (note_scan soup)
  = first_occurrences
      (filter (λ t, PyStr.truthy t = true) (marker_entries soup ≫= sibling_texts)).
Proof.
  rewrite note_scan_spec, <-!collect_nil. apply collect_marker_entries.
Qed.

End note_facts.

(** X6.  A text is among the collected notes exactly when it is non-empty
    and is the text of a [li] or [p] below an entry that holds a marker
    paragraph: nothing outside such entries is ever collected. *)
Theorem xd_note_membership (soup : node) (x : string) :
  x ∈ xd_notes (note_scan soup) ↔
  x ≠ EmptyString
  ∧ ∃ entry sibling,
      entry ∈ Soup.find_all "entry" soup
      ∧ (∃ p, p ∈ Soup.find_all "p" entry
              ∧ PyStr.lower (Soup.get_text_strip p) = "xd note")
      ∧ sibling ∈ Soup.find_all_of ["li"; "p"] entry
      ∧ Soup.get_text_strip sibling = x.
Proof.
  rewrite note_scan_marker_entries, elem_of_first_occurrences, list_elem_of_filter.
  unfold marker_entries, sibling_texts.
  assert (PyStr.truthy x = true ↔ x ≠ EmptyString) as ->
    by (destruct x; split; done).
  apply and_iff_compat_l. rewrite list_elem_of_bind. split.
  - intros (entry & (sibling & -> & Hs)%list_elem_of_fmap
                  & [(p & Hp & Hm)%Exists_exists He]%list_elem_of_filter).
    exists entry, sibling. split_and!; [done| |done..]. by exists p.
  - intros (entry & sibling & He & (p & Hp & Hm) & Hs & <-).
    exists entry. split; [by apply list_elem_of_fmap_2|].
    apply list_elem_of_filter. split; [|done]. apply Exists_exists. by exists p.
Qed.

(** X7.  A document in which no entry holds a marker paragraph gives the
    empty string and prints nothing, whatever list items and paragraphs it
    has. *)
Theorem no_marker_no_notes (fs : filesystem) (file_path : string) (soup : node) :
  (∀ entry p, entry ∈ Soup.find_all "entry" soup → p ∈ Soup.find_all "p" entry →
              PyStr.lower (Soup.get_text_strip p) ≠ "xd note") →
  extract_xd_note (<[file_path := Parsed soup]> fs) file_path = (EmptyString, []).
Proof.
  intros Hno. unfold extract_xd_note, read_soup. rewrite lookup_insert_eq.
  rewrite note_scan_marker_entries. unfold marker_entries.
  rewrite (filter_none has_marker); [done|].
  intros entry He (p & Hp & Hm)%Exists_exists. by apply (Hno entry p).
Qed.

Lemma no_marker_no_notes_witness :
  extract_xd_note (<[ "TRC/foo_testcase.dita" := Parsed unmarked_soup ]> ∅)
    "TRC/foo_testcase.dita"
  = (EmptyString, []).
Proof.
  apply (no_marker_no_notes ∅ "TRC/foo_testcase.dita" unmarked_soup).
  intros entry p He Hp.
  assert (Soup.find_all "entry" unmarked_soup
          = [Elem "entry" [para "Notes"; li "x"; li "y"]]) as Hes
    by (vm_compute; reflexivity).
  rewrite Hes in He. apply list_elem_of_singleton in He as ->.
  assert (Soup.find_all "p" (Elem "entry" [para "Notes"; li "x"; li "y"])
          = [para "Notes"]) as Hps by (vm_compute; reflexivity).
  rewrite Hps in Hp. apply list_elem_of_singleton in Hp as ->.
  vm_compute. discriminate.
Defined.

(** X8.  How many marker paragraphs an entry holds makes no difference: the
    collected notes are those of one scan of every entry that holds at least
    one marker, in document order, each text kept at its first occurrence. *)
Theorem one_scan_per_marker_entry (soup : node) :
  xd_notes (note_scan soup)
  = first_occurrences
      (filter (λ t, PyStr.truthy t = true)
         (marker_entries soup ≫= λ entry,
            Soup.get_text_strip <$> Soup.find_all_of ["li"; "p"] entry)).
Proof.
  rewrite note_scan_spec, <-!collect_nil.
  apply (collect_marker_entries (Soup.find_all "entry" soup) []).
Qed.

(** ** Edge cases of the table-cell block and of a run *)

Section edge_facts.

Lemma unlabelled_steps (texts : list string) (st : pr_state) :
  Forall (λ t, PyStr.startswith t "Premise:" = false
               ∧ PyStr.startswith t "Requirement:" = false) texts →
  fold_left premise_requirement_text_step texts st = st.
Proof.
  intros Hall. revert st. induction Hall as [|t texts [HP HR] _ IH]; intros st; [done|].
  cbn [fold_left]. unfold premise_requirement_text_step at 2. by rewrite HP, HR, IH.
Qed.


Lemma dita_files_idemp (listing : list string) :
  dita_files (dita_files listing) = dita_files listing.
Proof.
  unfold dita_files. rewrite list_filter_filter. apply list_filter_iff. tauto.
Qed.

Lemma read_soup_insert_ne (fs : filesystem) (other file_path : string) (x : file) :
  other ≠ file_path →
  read_soup (<[other := x]> fs) file_path = read_soup fs file_path.
Proof. intros Hne. unfold read_soup. by rewrite lookup_insert_ne. Qed.

Lemma process_pair_frame (fs : filesystem) (input_folder other : string) (x : file)
    (data : list Row) (matched : string * string) :
  other ≠ os_path_join input_folder matched.1 →
  other ≠ os_path_join input_folder matched.2 →
  process_pair (<[other := x]> fs) input_folder data matched
  = process_pair fs input_folder data matched.
Proof.
  intros Hb Ht. destruct matched as [b t]. cbn [fst snd] in *.
  unfold process_pair, extract_premise_and_requirement, parse_dita,
    parse_testcase_dita, extract_xd_note.
  by rewrite !(read_soup_insert_ne _ _ _ _ Hb), !(read_soup_insert_ne _ _ _ _ Ht).
Qed.

Lemma process_pairs_frame (fs : filesystem) (input_folder other : string) (x : file)
    (pairs : list (string * string)) (data : list Row) :
  Forall (λ matched, other ≠ os_path_join input_folder matched.1
                     ∧ other ≠ os_path_join input_folder matched.2) pairs →
  process_pairs (<[other := x]> fs) input_folder data pairs
  = process_pairs fs input_folder data pairs.
Proof.
  intros Hall. revert data. induction Hall as [|m ms [Hb Ht] _ IH]; intros data; [done|].
  cbn [process_pairs]. rewrite process_pair_frame by done.
  unfold mbind, Out_bind. by rewrite IH.
Qed.

End edge_facts.

(** X9.  When no paragraph inside a table-cell entry starts with
    [Premise:] or [Requirement:] (in particular when the document has no
    entry at all) the block is the bare frame: [Premise:], two line feeds,
    [Requirement:] and a line feed; the match is on the exact literal, letter
    case and colon included, and paragraphs outside the entries are never
    looked at. *)
Theorem unlabelled_block (fs : filesystem) (file_path : string) (soup : node) :
  Forall (λ t, PyStr.startswith t "Premise:" = false
               ∧ PyStr.startswith t "Requirement:" = false)
    (Soup.get_text_strip <$> (Soup.find_all "entry" soup ≫= Soup.find_all "p")) →
  extract_premise_and_requirement (<[file_path := Parsed soup]> fs) file_path
  = ("Premise:" +:+ NL +:+ NL +:+ "Requirement:" +:+ NL, []).
Proof.
  intros Hall. unfold extract_premise_and_requirement, read_soup.
  rewrite lookup_insert_eq, premise_requirement_scan_texts.
  by rewrite (unlabelled_steps _ _ Hall).
Qed.

Lemma unlabelled_block_witness :
  extract_premise_and_requirement (<[ "TRC/foo.dita" := Parsed unlabelled_soup ]> ∅)
    "TRC/foo.dita"
  = ("Premise:" +:+ NL +:+ NL +:+ "Requirement:" +:+ NL, []).
Proof.
  apply (unlabelled_block ∅ "TRC/foo.dita" unlabelled_soup).
  vm_compute. repeat constructor.
Defined.



(** X11.  Names in the listing that do not end in [.dita] make no
    difference to a run: the table and the printed lines are those of the
    listing without them. *)
Theorem other_extensions_ignored (fs : filesystem) (input_folder output_csv : string)
    (listing : list string) :
  process_folder fs input_folder listing output_csv
  = process_folder fs input_folder
      (filter (λ f, PyStr.endswith f ".dita" = true) listing) output_csv.
Proof.
  fold (dita_files listing). unfold process_folder, matched_files.
  by rewrite dita_files_idemp.
Qed.

(** X12.  A run reads only the files of its matched pairs: putting any
    content (or an unreadable file) at a path that is neither the base path
    nor the testcase path of a matched pair changes neither the table nor
    the printed lines. *)
Theorem unmatched_files_never_read (fs : filesystem) (input_folder output_csv : string)
    (listing : list string) (other : string) (x : file) :
  (∀ base_file testcase_file,
     (base_file, testcase_file) ∈ matched_files listing →
     other ≠ os_path_join input_folder base_file
     ∧ other ≠ os_path_join input_folder testcase_file) →
  process_folder (<[other := x]> fs) input_folder listing output_csv
  = process_folder fs input_folder listing output_csv.
Proof.
  intros Hother. unfold process_folder. rewrite process_pairs_frame; [done|].
  apply Forall_forall. intros [b t] Hm. by apply Hother.
Qed.

Lemma unmatched_files_never_read_witness :
  process_folder (<[ "TRC/bar_testcase.dita" := Unreadable "broken" ]> untitled_fs)
    "TRC" ["foo.dita"; "foo_testcase.dita"; "bar_testcase.dita"] "structured_output.csv"
  = process_folder untitled_fs
      "TRC" ["foo.dita"; "foo_testcase.dita"; "bar_testcase.dita"] "structured_output.csv".
Proof.
  apply (unmatched_files_never_read untitled_fs "TRC" "structured_output.csv"
           ["foo.dita"; "foo_testcase.dita"; "bar_testcase.dita"]
           "TRC/bar_testcase.dita" (Unreadable "broken")).
  intros b t Hm.
  assert (matched_files ["foo.dita"; "foo_testcase.dita"; "bar_testcase.dita"]
          = [("foo.dita", "foo_testcase.dita")]) as Hms by (vm_compute; reflexivity).
  rewrite Hms in Hm. apply list_elem_of_singleton in Hm as [= -> ->].
  split; vm_compute; discriminate.
Defined.

(** ** The serialised step records *)

Section json_facts.

Lemma all_printable_app (s t : string) :
  all_printable (s +:+ t) = all_printable s && all_printable t.
Proof.
  induction s as [|c s IH]; [done|]. rewrite str_app_cons. cbn [all_printable].
  by rewrite IH, andb_assoc.
Qed.

Lemma escape_char_printable (c : ascii) : all_printable (Json.escape_char c) = true.
Proof. destruct c as [[] [] [] [] [] [] [] []]; vm_compute; reflexivity. Qed.

Lemma escape_printable (s : string) : all_printable (Json.escape s) = true.
Proof.
  induction s as [|c s IH]; [done|]. cbn [Json.escape].
  by rewrite all_printable_app, escape_char_printable, IH.
Qed.

Lemma str_printable (s : string) : all_printable (Json.str s) = true.
Proof.
  unfold Json.str. by rewrite !all_printable_app, escape_printable.
Qed.

Lemma step_record_printable (r : StepRecord) :
  all_printable (Json.step_record r) = true.
Proof.
  unfold Json.step_record, Json.member.
  by rewrite !all_printable_app, !str_printable.
Qed.

Lemma join_printable (sep : string) (l : list string) :
  all_printable sep = true → Forall (λ s, all_printable s = true) l →
  all_printable (PyStr.join sep l) = true.
Proof.
  intros Hsep. induction 1 as [|s l Hs Hl IH]; [done|].
  destruct l as [|s' l]; [done|].
  change (PyStr.join sep (s :: s' :: l)) with (s +:+ sep +:+ PyStr.join sep (s' :: l)).
  by rewrite !all_printable_app, Hs, Hsep, IH.
Qed.

Lemma dumps_printable (custom_fields : option (list StepRecord)) :
  all_printable (Json.dumps custom_fields) = true.
Proof.
  destruct custom_fields as [l|]; [|done]. unfold Json.dumps.
  rewrite !all_printable_app, join_printable; [done..|].
  apply Forall_forall. intros s (r & -> & _)%list_elem_of_fmap.
  apply step_record_printable.
Qed.

Lemma pair_row_steps (fs : filesystem) (input_folder : string)
    (matched : string * string) (row : Row) :
  pair_row fs input_folder matched = Some row →
  ∃ custom_fields, row !! 3 = Some (Some (Json.dumps (Some custom_fields))).
Proof.
  unfold pair_row.
  destruct (truthy_opt (base_title _ _)); [|done].
  destruct (truthy_opt (testcase_title _ _)) eqn:Ht; [|done].
  cbn [andb]. intros [= <-].
  destruct (truthy_testcase_title_parsed _ _ Ht) as [tsoup Hts].
  unfold parse_testcase_dita, extract_xd_note. rewrite Hts.
  cbn [fst snd mret Out_ret mbind Out_bind]. by eexists.
Qed.

End json_facts.

(** X13.  In every row after the header the fourth cell, the serialised
    step records, is a JSON array and never [null], and it is made of
    printable ASCII characters only: line feeds, quotes and every character
    outside ASCII in the texts arrive escaped, so the cell is one line. *)
Theorem steps_cell_is_one_ascii_line (fs : filesystem)
    (input_folder output_csv : string) (listing : list string) :
  Forall (λ row : Row,
            ∃ steps, row !! 3 = Some (Some steps)
                     ∧ PyStr.startswith steps "[" = true
                     ∧ all_printable steps = true)
    (tail (process_folder fs input_folder listing output_csv).1).
Proof.
  rewrite process_folder_spec. cbn [fst tail].
  apply Forall_forall. intros row (matched & _ & Hrow)%list_elem_of_omap.
  apply pair_row_steps in Hrow as [cf Hcf].
  exists (Json.dumps (Some cf)). split_and!; [done..|]. apply dumps_printable.
Qed.

(** ** Titles and rows *)

Section trimmed_facts.

Lemma lstrip_starts (s : string) : starts_with_space (PyStr.lstrip s) = false.
Proof.
  induction s as [|c s IH]; [done|]. cbn [PyStr.lstrip].
  destruct (PyStr.isspace c) eqn:E; [done|]. cbn. by rewrite E.
Qed.

Lemma rstrip_ends (s : string) : ends_with_space (PyStr.rstrip s) = false.
Proof.
  induction s as [|c s IH]; [done|]. cbn [PyStr.rstrip].
  destruct (PyStr.rstrip s) as [|c' r].
  - destruct (PyStr.isspace c) eqn:E; [done|]. cbn. by rewrite E.
  - done.
Qed.

Lemma rstrip_starts (s : string) :
  starts_with_space s = false → starts_with_space (PyStr.rstrip s) = false.
Proof.
  destruct s as [|c s]; [done|]. cbn [starts_with_space PyStr.rstrip]. intros Hc.
  destruct (PyStr.rstrip s); [by rewrite Hc|done].
Qed.

Lemma strip_trimmed (s : string) : trimmed (PyStr.strip s).
Proof.
  split; [apply rstrip_starts, lstrip_starts|apply rstrip_ends].
Qed.

Lemma ends_with_space_app (s t : string) :
  t ≠ EmptyString → ends_with_space (s +:+ t) = ends_with_space t.
Proof.
  intros Ht. induction s as [|c s IH]; [done|]. rewrite str_app_cons.
  cbn [ends_with_space]. destruct (s +:+ t) eqn:E; [|done].
  destruct s; [by rewrite str_app_nil_l in E|by rewrite str_app_cons in E].
Qed.

Lemma join_trimmed (l : list string) :
  Forall (λ s, s ≠ EmptyString ∧ trimmed s) l → trimmed (PyStr.join EmptyString l).
Proof.
  induction 1 as [|s l [Hs [Hst Hen]] Hl IH]; [done|].
  destruct l as [|s' l]; [done|].
  change (PyStr.join EmptyString (s :: s' :: l))
    with (s +:+ PyStr.join EmptyString (s' :: l)).
  assert (PyStr.join EmptyString (s' :: l) ≠ EmptyString) as Hne.
  { apply Forall_cons in Hl as [[Hs' _] _]. destruct s' as [|c s']; [done|].
    destruct l; [done|].
    change (PyStr.join EmptyString (String c s' :: s :: l))
      with (String c (s' +:+ PyStr.join EmptyString (s :: l))). done. }
  split.
  - destruct s; [done|]. by rewrite str_app_cons.
  - rewrite ends_with_space_app by done. apply IH.
Qed.

Lemma get_text_strip_trimmed (n : node) : trimmed (Soup.get_text_strip n).
Proof.
  unfold Soup.get_text_strip. apply join_trimmed, Forall_forall.
  intros s [Hs (s0 & -> & _)%list_elem_of_fmap]%list_elem_of_filter.
  split; [by destruct (PyStr.strip s0)|apply strip_trimmed].
Qed.

End trimmed_facts.

(** X14.  A title never starts or ends with white space: it is the
    concatenation of the stripped, non-empty strings of the first title
    element, or the fallback.  So the summary of every row after the header
    is a non-empty string without white space at either end. *)
Theorem summary_is_trimmed (fs : filesystem) (input_folder output_csv : string)
    (listing : list string) :
  (∀ soup : node, trimmed (title_of soup))
  ∧ Forall (λ row : Row,
              ∃ summary, head row = Some (Some summary)
                         ∧ summary ≠ EmptyString ∧ trimmed summary)
      (tail (process_folder fs input_folder listing output_csv).1).
Proof.
  assert (∀ soup : node, trimmed (title_of soup)) as Htitle.
  { intros soup. unfold title_of. destruct (Soup.find "title" soup); [|done].
    apply get_text_strip_trimmed. }
  split; [done|]. rewrite process_folder_spec. cbn [fst tail].
  apply Forall_forall. intros row (matched & _ & Hrow)%list_elem_of_omap.
  revert Hrow. unfold pair_row.
  destruct (truthy_opt (base_title _ _)) eqn:Hb; [|done].
  destruct (truthy_opt (testcase_title _ _)); [|done].
  cbn [andb]. intros [= <-].
  destruct (truthy_base_title_parsed _ _ Hb) as [bsoup Hbs].
  revert Hb. unfold base_title, parse_dita. rewrite Hbs.
  cbn [fst snd mret Out_ret]. intros Hb.
  exists (title_of bsoup). split_and!; [done| |done].
  by destruct (title_of bsoup).
Qed.

(** X15.  A pair whose two files parse and whose two titles are non-empty
    adds exactly one row and prints nothing.  The row holds the title of the
    base document, its free-form description, its table-cell block, the
    serialised step records of the testcase document and the notes of the
    testcase document. *)
Theorem row_of_a_readable_pair (fs : filesystem) (input_folder : string)
    (data : list Row) (base_file testcase_file : string) (base testcase : node) :
  fs !! os_path_join input_folder base_file = Some (Parsed base) →
  fs !! os_path_join input_folder testcase_file = Some (Parsed testcase) →
  title_of base ≠ EmptyString →
  title_of testcase ≠ EmptyString →
  process_pair fs input_folder data (base_file, testcase_file)
  = (data ++
       [[ Some (title_of base);
          Some (PyStr.join (NL +:+ NL) (description (parse_dita_scan base)));
          Some (premise_requirement_format (premise_requirement_scan base));
          Some (Json.dumps (Some (custom_fields_of testcase)));
          Some (PyStr.join NL (xd_notes (note_scan testcase))) ]],
     []).
Proof.
  intros Hb Ht Hbt Htt.
  unfold process_pair, extract_premise_and_requirement, parse_dita,
    parse_testcase_dita, extract_xd_note, read_soup.
  rewrite Hb, Ht. cbn [fst snd mret Out_ret mbind Out_bind app].
  destruct (title_of base); [done|]. by destruct (title_of testcase).
Qed.

Lemma row_of_a_readable_pair_witness :
  (process_pair (retitled_fs "Foo test") "TRC" [] ("foo.dita", "foo_testcase.dita")).2
  = [].
Proof.
  rewrite (row_of_a_readable_pair (retitled_fs "Foo test") "TRC" []
             "foo.dita" "foo_testcase.dita" base_soup (retitled_testcase_soup "Foo test"));
    [reflexivity|vm_compute; reflexivity..|vm_compute; discriminate|vm_compute; discriminate].
Defined.

(** X16.  The title of the testcase document only decides whether the row
    is written; it is never written itself.  Two runs that agree on the base
    document, on the notes and the step records of the testcase document and
    on whether its title is empty assemble the same rows. *)
Theorem testcase_title_only_gates (fs fs' : filesystem) (input_folder : string)
    (data : list Row) (matched : string * string) :
  (extract_premise_and_requirement fs (os_path_join input_folder matched.1)).1
  = (extract_premise_and_requirement fs' (os_path_join input_folder matched.1)).1 →
  (parse_dita fs (os_path_join input_folder matched.1)).1
  = (parse_dita fs' (os_path_join input_folder matched.1)).1 →
  truthy_opt (testcase_title fs (os_path_join input_folder matched.2))
  = truthy_opt (testcase_title fs' (os_path_join input_folder matched.2)) →
  (parse_testcase_dita fs (os_path_join input_folder matched.2)).1.1.2
  = (parse_testcase_dita fs' (os_path_join input_folder matched.2)).1.1.2 →
  (parse_testcase_dita fs (os_path_join input_folder matched.2)).1.2
  = (parse_testcase_dita fs' (os_path_join input_folder matched.2)).1.2 →
  (process_pair fs input_folder data matched).1
  = (process_pair fs' input_folder data matched).1.
Proof.
  intros Hcfp Hbase Htitle Hnotes Hsteps. rewrite !process_pair_spec. cbn [fst].
  do 2 f_equal. unfold pair_row, base_title.
  by rewrite Hcfp, Hbase, Htitle, Hnotes, Hsteps.
Qed.

Lemma testcase_title_only_gates_witness :
  testcase_title (retitled_fs "One") "TRC/foo_testcase.dita"
  ≠ testcase_title (retitled_fs "Two") "TRC/foo_testcase.dita"
  ∧ (process_pair (retitled_fs "One") "TRC" [] ("foo.dita", "foo_testcase.dita")).1
    = (process_pair (retitled_fs "Two") "TRC" [] ("foo.dita", "foo_testcase.dita")).1.
Proof.
  split; [vm_compute; discriminate|].
  apply (testcase_title_only_gates (retitled_fs "One") (retitled_fs "Two") "TRC" []
           ("foo.dita", "foo_testcase.dita")); vm_compute; reflexivity.
Defined.
